(** * documentation-bot: the repository analyzer

  A shallow embedding of [RepositoryAnalyzer] (src/documentation_bot.py,
  lines 32-143): the constructor's existence check, the [rglob] walk of
  [analyze], the ignore policy of [_should_ignore_file] and the per-file
  classification of [_analyze_file].

  Conventions.
  - A Python [str] is a [string]; its characters are read as code points
    below 256, so [lower] and [strip] follow Python on that range.
  - A [pathlib] path is the list of its components ([parts]).
  - The filesystem is what the code observes of it: the outcome of
    [exists()] on the root, the entries [rglob] yields, in the order it
    yields them, whether the enumeration then ends or raises, and for
    each entry the outcome of [is_file()], [stat()], [open()/read()] and
    [read_text()]. Each of these calls either answers or raises.
  - A Python [set] that is mutated is a [gset string]; a set literal that
    is only tested for membership is a list.
  - An exception is an explicit outcome ([Raise]); the loop of [analyze]
    threads it through a small error monad. *)

From Stdlib Require Import String Ascii ZArith Lia Bool.
From Stdlib Require Strings.Byte.
From stdpp Require Import base gmap strings list sets.

Local Open Scope string_scope.
Local Open Scope Z_scope.

(** ** Python string operations *)

Module PyStr.

(** [str.lower()] on one code point below 256: A-Z and the Latin-1
    capitals (all of 192-222 but the multiplication sign 215). *)
Definition lower_ascii (c : ascii) : ascii :=
  let n := nat_of_ascii c in
  if ((65 <=? n)%nat && (n <=? 90)%nat)
     || ((192 <=? n)%nat && (n <=? 222)%nat && negb (n =? 215)%nat)
  then ascii_of_nat (n + 32) else c.

Fixpoint lower (s : string) : string :=
  match s with
  | EmptyString => EmptyString
  | String c s' => String (lower_ascii c) (lower s')
  end.

(** [str.isspace()] on one code point below 256. *)
Definition is_space (c : ascii) : bool :=
  let n := nat_of_ascii c in
  ((9 <=? n)%nat && (n <=? 13)%nat) || ((28 <=? n)%nat && (n <=? 32)%nat)
  || (n =? 133)%nat || (n =? 160)%nat.

Fixpoint lstrip (s : string) : string :=
  match s with
  | EmptyString => EmptyString
  | String c s' => if is_space c then lstrip s' else s
  end.

Fixpoint rstrip (s : string) : string :=
  match s with
  | EmptyString => EmptyString
  | String c s' =>
      match rstrip s' with
      | EmptyString => if is_space c then EmptyString else String c EmptyString
      | t => String c t
      end
  end.

(** [s.strip()] *)
Definition strip (s : string) : string := rstrip (lstrip s).

(** [s.split(sep)] for a one-character separator: never an empty list. *)
Fixpoint split (sep : ascii) (s : string) : list string :=
  match s with
  | EmptyString => [EmptyString]
  | String c s' =>
      if Ascii.eqb c sep then EmptyString :: split sep s'
      else match split sep s' with
           | [] => [String c EmptyString]
           | l :: ls => String c l :: ls
           end
  end.

(** [s.startswith(p)] *)
Definition startswith (s p : string) : bool := String.prefix p s.

(** [sub in s] *)
Fixpoint contains (sub s : string) : bool :=
  String.prefix sub s ||
  match s with
  | EmptyString => false
  | String _ s' => contains sub s'
  end.

(** [s.rfind(c)] for a one-character needle: the index of its last
    occurrence, or -1. *)
Fixpoint rfind (c : ascii) (s : string) : Z :=
  match s with
  | EmptyString => -1
  | String a s' =>
      let r := rfind c s' in
      if 0 <=? r then r + 1 else if Ascii.eqb a c then 0 else -1
  end.

(** [s[i:]] for [0 <= i]. *)
Fixpoint drop (n : nat) (s : string) : string :=
  match n, s with
  | O, _ => s
  | S n', String _ s' => drop n' s'
  | S _, EmptyString => EmptyString
  end.

Definition len (s : string) : Z := Z.of_nat (String.length s).

(** [sep.join(l)] *)
Definition join (sep : string) (l : list string) : string := String.concat sep l.

End PyStr.

(** ** pathlib *)

Module PurePath.

(** A path is its [parts]. *)
Definition t := list string.

(** [p.name]: the final component. *)
Definition name (p : t) : string := List.last p EmptyString.

(** [p.suffix]:
    [i = name.rfind('.')]; [name[i:]] if [0 < i < len(name) - 1], else ['']. *)
Definition suffix (p : t) : string :=
  let name := name p in
  let i := PyStr.rfind "." name in
  if (0 <? i) && (i <? PyStr.len name - 1)
  then PyStr.drop (Z.to_nat i) name
  else EmptyString.

(** [str(p)] of a relative POSIX path. *)
Definition str (p : t) : string := PyStr.join "/" p.

End PurePath.

(** ** Exceptions *)

Inductive exn : Type :=
| ValueError   (* raised by [__init__] *)
| OSError.     (* raised by [exists()], [rglob], [is_file()] or [stat()] *)

Inductive outcome (A : Type) : Type :=
| Return (a : A)
| Raise (e : exn).
Arguments Return {A} a.
Arguments Raise {A} e.

#[global] Instance outcome_ret : MRet outcome := @Return.
#[global] Instance outcome_bind : MBind outcome := λ A B k m,
  match m with
| Return a => k a
| Raise e => Raise e
  end.

(** A [for] loop whose body may raise: the first exception ends the loop. *)
Fixpoint for_each {A S : Type} (body : S → A → outcome S) (l : list A) (s : S)
  : outcome S :=
  match l with
| [] => Return s
| x :: l' => s' ← body s x; for_each body l' s'
  end.

(** ** The filesystem as the analyzer observes it *)

(** One entry yielded by [repo_path.rglob('*')]. *)
Record Entry : Type := mkEntry {
  rel : PurePath.t;                       (* its components below the root *)
  is_file : option bool;                  (* [is_file()]; [None]: it raises *)
  st_size : option Z;                     (* [stat().st_size]; [None]: [stat()] raises *)
  content : option (list Byte.byte);      (* bytes behind [open(.., 'rb')]; [None]: it raises *)
  read_text : option string               (* [read_text()]; [None]: it raises *)
}.

(** What the filesystem holds at the root path. [exists()] and [rglob]
  start with a [stat()] of the root. When that fails because nothing is
  there (ENOENT, ENOTDIR, EBADF, ELOOP), [exists()] answers [False] and
  [rglob] yields nothing; every other failure (a name that is too long,
  a directory above the root that may not be searched) they pass on as
  the [OSError] it is. [rglob] on a path that is not a directory yields
  nothing; on a directory it yields [walk], in that order, and then it
  ends, or it raises, when a directory of the tree cannot be listed for
  another reason than its permissions. *)
Inductive RootKind : Type :=
| Missing                          (* [stat()] finds nothing there *)
| Inaccessible                     (* [stat()] of the root raises another error *)
| NotDirectory                     (* something that is not a directory *)
| Directory (walk : list Entry)    (* a directory that [rglob] walks to its end *)
| Interrupted (walk : list Entry). (* a directory; [rglob] raises after [walk] *)

(** [repo_path.exists()] *)
Definition path_exists (root : RootKind) : outcome bool :=
  match root with
  | Missing => Return false
  | Inaccessible => Raise OSError
  | _ => Return true
  end.

(** The entries [repo_path.rglob('*')] yields. *)
Definition rglob (root : RootKind) : list Entry :=
  match root with
  | Directory walk | Interrupted walk => walk
  | _ => []
  end.

(** How the enumeration ends after its last entry. *)
Definition rglob_end (root : RootKind) : outcome unit :=
  match root with
  | Inaccessible | Interrupted _ => Raise OSError
  | _ => Return ()
  end.

(** ** The result dictionary

  [S] is the container of ['file_types'] and ['languages']: a set while
  the walk runs, a list in the dictionary that [analyze] returns. *)
Record Result (S : Type) : Type := mkResult {
  file_types : S;
  languages : S;
  structure : list string;
  main_files : list string;
  config_files : list string;
  dependencies : list string;
  project_type : string
}.
Arguments mkResult {S}.
Arguments file_types {S}.
Arguments languages {S}.
Arguments structure {S}.
Arguments main_files {S}.
Arguments config_files {S}.
Arguments dependencies {S}.
Arguments project_type {S}.

Abbreviation State := (Result (gset string)).

Definition add_file_type (x : string) (r : State) : State :=
  mkResult ({[x]} ∪ file_types r) (languages r) (structure r) (main_files r)
         (config_files r) (dependencies r) (project_type r).
Definition add_language (x : string) (r : State) : State :=
  mkResult (file_types r) ({[x]} ∪ languages r) (structure r) (main_files r)
         (config_files r) (dependencies r) (project_type r).
Definition append_structure (x : string) (r : State) : State :=
  mkResult (file_types r) (languages r) (structure r ++ [x])%list (main_files r)
         (config_files r) (dependencies r) (project_type r).
Definition append_main_file (x : string) (r : State) : State :=
  mkResult (file_types r) (languages r) (structure r) (main_files r ++ [x])%list
         (config_files r) (dependencies r) (project_type r).
Definition append_config_file (x : string) (r : State) : State :=
  mkResult (file_types r) (languages r) (structure r) (main_files r)
         (config_files r ++ [x])%list (dependencies r) (project_type r).
Definition append_dependency (x : string) (r : State) : State :=
  mkResult (file_types r) (languages r) (structure r) (main_files r)
         (config_files r) (dependencies r ++ [x])%list (project_type r).
Definition set_project_type (x : string) (r : State) : State :=
  mkResult (file_types r) (languages r) (structure r) (main_files r)
         (config_files r) (dependencies r) x.

(** ** RepositoryAnalyzer *)

Section RepositoryAnalyzer.

(** [self.repo_path], and what the filesystem holds there. *)
Variable repo_path : PurePath.t.
Variable root : RootKind.

(** The path object of an entry: [rglob] yields the root joined with the
    components below it. *)
Definition parts (file_path : Entry) : PurePath.t :=
  (repo_path ++ rel file_path)%list.

(** [file_path.relative_to(self.repo_path)] *)
Definition relative_to (file_path : Entry) : PurePath.t := rel file_path.

(** [file_path.stat().st_size] *)
Definition stat_size (file_path : Entry) : outcome Z :=
  match st_size file_path with
  | Some n => Return n
  | None => Raise OSError
  end.

Definition ignore_dirs : list string :=
  [".git"; "__pycache__"; ".pytest_cache"; "node_modules"; ".venv"; "venv"].

Definition _should_ignore_file (file_path : Entry) : outcome bool :=
  if existsb (λ part, bool_decide (part ∈ ignore_dirs)) (parts file_path)
  then Return true
  else
    size ← stat_size file_path;
    if 1024 * 1024 <? size then Return true
    else
      match content file_path with
      | Some bytes =>
          let chunk := take 1024 bytes in
          if existsb (Byte.eqb Byte.x00) chunk then Return true
          else Return false
      | None => Return true
      end.

Definition main_names : list string := ["main.py"; "app.py"; "index.py"; "run.py"].

Definition config_names : list string :=
  ["requirements.txt"; "package.json"; "setup.py"; "pyproject.toml";
   "dockerfile"; "docker-compose.yml"; ".env.example"; "config.json"].

(** [if not result['project_type'] or result['project_type'] == 'unknown'] *)
Definition claim_project_type (lang : string) (result : State) : State :=
  if String.eqb (project_type result) "" || String.eqb (project_type result) "unknown"
  then set_project_type lang result
  else result.

(** The test of the dependency loop:
    [line and not line.startswith('#') and '==' in line] *)
Definition is_dependency (line : string) : bool :=
  negb (String.eqb line "") && negb (PyStr.startswith line "#")
  && PyStr.contains "==" line.

(** The body of the [for line in content.split('\n')] loop. *)
Definition scan_line (result : State) (line : string) : State :=
  let line := PyStr.strip line in
  if is_dependency line then append_dependency line result else result.

Definition _analyze_file (file_path : Entry) (result : State) : State :=
  let filename := PyStr.lower (PurePath.name (parts file_path)) in
  let suffix := PyStr.lower (PurePath.suffix (parts file_path)) in
  let result :=
    if bool_decide (filename ∈ main_names)
    then append_main_file (PurePath.str (relative_to file_path)) result
    else result in
  let result :=
    if bool_decide (filename ∈ config_names)
    then append_config_file (PurePath.str (relative_to file_path)) result
    else result in
  let result :=
    if String.eqb suffix ".py"
    then claim_project_type "Python" (add_language "Python" result)
    else if bool_decide (suffix ∈ [".js"; ".jsx"; ".ts"; ".tsx"])
    then claim_project_type "JavaScript" (add_language "JavaScript" result)
    else if bool_decide (suffix ∈ [".html"; ".htm"])
    then add_language "HTML" result
    else if String.eqb suffix ".css" then add_language "CSS" result
    else if String.eqb suffix ".json" then add_language "JSON" result
    else if String.eqb suffix ".md" then add_language "Markdown" result
    else if bool_decide (suffix ∈ [".yml"; ".yaml"])
    then add_language "YAML" result
    else if String.eqb suffix ".txt" then add_language "Text" result
    else result in
  if String.eqb filename "requirements.txt"
  then
    match read_text file_path with
    | Some text =>
        fold_left scan_line (PyStr.split "010" text) result
    | None => result
    end
  else result.

Definition initial : State :=
  mkResult ∅ ∅ [] [] [] [] "unknown".

(** The body of the [for file_path in self.repo_path.rglob('*')] loop. *)
Definition visit (result : State) (file_path : Entry) : outcome State :=
  match is_file file_path with
  | None => Raise OSError
  | Some false => Return result
  | Some true =>
      ignored ← _should_ignore_file file_path;
      if (ignored : bool) then Return result
      else
        let relative_path := relative_to file_path in
        let result := append_structure (PurePath.str relative_path) result in
        let suffix := PyStr.lower (PurePath.suffix (parts file_path)) in
        let result :=
          if negb (String.eqb suffix "") then add_file_type suffix result
          else result in
        Return (_analyze_file file_path result)
  end.

(** [list(s)] of a set: its elements, in an order the code does not fix. *)
Definition to_list (r : State) : Result (list string) :=
  mkResult (elements (file_types r)) (elements (languages r)) (structure r)
           (main_files r) (config_files r) (dependencies r) (project_type r).

Definition analyze : outcome (Result (list string)) :=
  result ← for_each visit (rglob root) initial;
  _ ← rglob_end root;
  Return (to_list result).

(** [RepositoryAnalyzer.__init__] *)
Definition __init__ : outcome unit :=
  found ← path_exists root;
  if negb (found : bool) then Raise ValueError else Return ().

End RepositoryAnalyzer.

(** [RepositoryAnalyzer(repo_path).analyze()] *)
Definition scan (repo_path : PurePath.t) (root : RootKind)
  : outcome (Result (list string)) :=
  _ ← __init__ root; analyze repo_path root.

(** * Vocabulary of the specification *)

#[global] Instance exn_eq_dec : EqDecision exn.
Proof. solve_decision. Defined.

#[global] Instance outcome_eq_dec `{EqDecision A} : EqDecision (outcome A).
Proof. solve_decision. Defined.

(** The lower-cased file name and extension the classification looks at. *)
Definition filename (repo_path : PurePath.t) (e : Entry) : string :=
  PyStr.lower (PurePath.name (parts repo_path e)).

Definition extension (repo_path : PurePath.t) (e : Entry) : string :=
  PyStr.lower (PurePath.suffix (parts repo_path e)).

(** The relative path as [structure] reports it. *)
Definition shown (e : Entry) : string := PurePath.str (rel e).

(** A regular file that the ignore policy lets through. *)
Definition Retained (repo_path : PurePath.t) (e : Entry) : Prop :=
  is_file e = Some true ∧ _should_ignore_file repo_path e = Return false.

#[global] Instance Retained_dec repo_path e : Decision (Retained repo_path e).
Proof. unfold Retained. apply _. Defined.

(** The files the scan retains, in the order of the walk. *)
Definition retained_files (repo_path : PurePath.t) (root : RootKind)
  : list Entry :=
  filter (Retained repo_path) (rglob root).

(** The names of the directories the specification has ignored. *)
Definition ignored_names : list string :=
  [".git"; "__pycache__"; ".pytest_cache"; "node_modules"; ".venv"; "venv"].

(** The ignore policy in the words of the specification: no component of
    the file's path under the root is an ignored directory name, its
    size is at most 1 MiB, and it can be opened and its first 1024 bytes
    hold no null byte. *)
Definition PassesPolicy (e : Entry) : Prop :=
  (∀ part, part ∈ rel e → part ∉ ignored_names)
  ∧ (∃ n, st_size e = Some n ∧ n ≤ 1048576)
  ∧ (∃ bytes, content e = Some bytes ∧ Byte.x00 ∉ take 1024 bytes).

(** No component of the root path itself is an ignored directory name. *)
Definition RootClear (repo_path : PurePath.t) : Prop :=
  ∀ part, part ∈ repo_path → part ∉ ignored_names.

(** The size check cannot be made: the file's path has no ignored
    component and [stat()] raises. *)
Definition StatFails (repo_path : PurePath.t) (e : Entry) : Prop :=
  is_file e = Some true
  ∧ (∀ part, part ∈ parts repo_path e → part ∉ ignore_dirs)
  ∧ st_size e = None.

(** The loop body raises at this entry: [is_file()] raises, or the size
    check cannot be made. *)
Definition Stops (repo_path : PurePath.t) (e : Entry) : Prop :=
  is_file e = None ∨ StatFails repo_path e.

(** The extension table of the specification. *)
Definition language_table : list (string * string) :=
  [(".py", "Python");
   (".js", "JavaScript"); (".jsx", "JavaScript");
   (".ts", "JavaScript"); (".tsx", "JavaScript");
   (".html", "HTML"); (".htm", "HTML");
   (".css", "CSS"); (".json", "JSON"); (".md", "Markdown");
   (".yml", "YAML"); (".yaml", "YAML"); (".txt", "Text")].

Definition language_of (ext : string) : option string :=
  snd <$> List.find (λ row, String.eqb (fst row) ext) language_table.

(** The languages that may set [project_type]. *)
Definition primary_language (ext : string) : option string :=
  if bool_decide (ext ∈ [".py"; ".js"; ".jsx"; ".ts"; ".tsx"])
  then language_of ext else None.

(** The language of the first file, in the order given, whose extension
    is one of a primary language. *)
Definition first_primary_language (repo_path : PurePath.t) (es : list Entry)
  : option string :=
  head (omap (λ e, primary_language (extension repo_path e)) es).

(** Every character of [s] is white space. *)
Fixpoint blank (s : string) : Prop :=
  match s with
  | EmptyString => True
  | String c s' => PyStr.is_space c = true ∧ blank s'
  end.

(** Character [c] occurs in [s]. *)
Fixpoint occurs (c : ascii) (s : string) : Prop :=
  match s with
  | EmptyString => False
  | String a s' => a = c ∨ occurs c s'
  end.

(** [s] starts with [p]; [sub] is a substring of [s]. *)
Definition StartsWith (p s : string) : Prop := ∃ t, s = p +:+ t.

Definition Substring (sub s : string) : Prop :=
  ∃ pre post, s = pre +:+ sub +:+ post.

#[global] Instance StartsWith_dec p s : Decision (StartsWith p s).
Proof.
  unfold StartsWith. revert s. induction p as [|a p IH]; intros s.
  - left. by exists s.
  - destruct s as [|b s].
    { right. intros [t Ht]. change ("" = String a (p +:+ t)) in Ht. done. }
    destruct (decide (a = b)) as [->|Hab].
    + destruct (IH s) as [Hyes|Hno].
      * left. destruct Hyes as [t ->]. by exists t.
      * right. intros [t Ht]. apply Hno. exists t.
        change (String b s = String b (p +:+ t)) in Ht. congruence.
    + right. intros [t Ht].
      change (String b s = String a (p +:+ t)) in Ht. congruence.
Defined.

#[global] Instance Substring_dec sub s : Decision (Substring sub s).
Proof.
  unfold Substring. induction s as [|a s IH].
  - destruct (decide (sub = "")) as [->|Hne].
    + left. by exists "", "".
    + right. intros ([|b pre] & post & H); [|done].
      change ("" = sub +:+ post) in H. destruct sub; [done|].
      change ("" = String a (sub +:+ post)) in H. done.
  - destruct (StartsWith_dec sub (String a s)) as [Hyes|Hno].
    + left. destruct Hyes as [t Ht]. by exists "", t.
    + destruct IH as [Hin|Hout].
      * left. destruct Hin as (pre & post & ->). by exists (String a pre), post.
      * right. intros ([|b pre] & post & H).
        -- apply Hno. by exists post.
        -- apply Hout. exists pre, post.
           change (String a s = String b (pre +:+ sub +:+ post)) in H.
           congruence.
Defined.

(** A line that the dependency extraction keeps: not empty, not starting
    with '#', and holding the substring '=='. *)
Definition DependencyLine (line : string) : Prop :=
  line ≠ "" ∧ ¬ StartsWith "#" line ∧ Substring "==" line.

#[global] Instance DependencyLine_dec line : Decision (DependencyLine line).
Proof. unfold DependencyLine. apply _. Defined.

(** The dependency lines of a text: its lines, trimmed, those kept. *)
Definition dependency_lines (text : string) : list string :=
  filter DependencyLine (PyStr.strip <$> PyStr.split "010" text).

(** What one retained file adds to [dependencies]. *)
Definition declared_dependencies (repo_path : PurePath.t) (e : Entry)
  : list string :=
  if decide (filename repo_path e = "requirements.txt")
  then match read_text e with
       | Some text => dependency_lines text
       | None => []
       end
  else [].

(** What the loop body does to the result when it retains the file. *)
Definition classify (repo_path : PurePath.t) (r : State) (e : Entry) : State :=
  _analyze_file repo_path e
    (let r := append_structure (shown e) r in
     if negb (String.eqb (extension repo_path e) "")
     then add_file_type (extension repo_path e) r else r).

(** ** Sample files *)

Definition sample_small : Entry :=
  mkEntry ["src"; "small.py"] (Some true) (Some 10) (Some [Byte.x61]) (Some "a").

Definition sample_big : Entry :=
  mkEntry ["big.py"] (Some true) (Some 2000000) (Some [Byte.x61]) (Some "a").

Definition sample_readme : Entry :=
  mkEntry ["README.md"] (Some true) (Some 20) (Some [Byte.x23]) (Some "#").

Definition sample_vendored : Entry :=
  mkEntry ["node_modules"; "left.js"] (Some true) (Some 20) (Some []) (Some "").

Definition sample_script : Entry :=
  mkEntry ["web"; "App.TSX"] (Some true) (Some 20) (Some []) (Some "").

Definition sample_requirements : Entry :=
  mkEntry ["Requirements.TXT"] (Some true) (Some 64) (Some [])
    (Some ("requests==2.28.0" +:+ String "010" (
           "  flask==2.3.0  " +:+ String "010" (
           "# pinned==1.0" +:+ String "010" (
           "numpy>=1.0" +:+ String "010" ""))))).

Definition sample_entry_point : Entry :=
  mkEntry ["pkg"; "Main.PY"] (Some true) (Some 5) (Some []) (Some "").

Definition sample_dockerfile : Entry :=
  mkEntry ["deploy"; "Dockerfile"] (Some true) (Some 5) (Some []) (Some "").

Definition sample_unmapped : Entry :=
  mkEntry ["build"; "Notes.RST"] (Some true) (Some 5) (Some []) (Some "").

Definition sample_venv_file : Entry :=
  mkEntry ["tools"; "venv"] (Some true) (Some 5) (Some []) (Some "").

Definition sample_vanished : Entry :=
  mkEntry ["gone.py"] (Some true) None None None.

Definition sample_locked : Entry :=
  mkEntry ["node_modules"; "locked"] None None None None.

Definition sample_gitignore : Entry :=
  mkEntry [".gitignore"] (Some true) (Some 5) (Some []) (Some "").

(** * The documentation generator and the bot

    [DocumentationGenerator] and [DocumentationBot] (lines 146-505) talk to
    three things outside the program: the process environment, the OpenAI
    API and the filesystem. They are part of the state the methods run
    in. A method is a function from that state to the state it leaves and
    either its result or the exception it raises; what was sent and
    written before an exception stays sent and written. Calls to the
    logger change nothing that the program reads and are left out. *)

(** Why a [ValueError] is raised (its message in the source). *)
Inductive reason : Type :=
| PathMissing        (* Repository path does not exist: ... *)
| BadDetailLevel     (* Detail level must be 'low', 'medium', or 'high' *)
| BadMaxCalls        (* Max LLM calls must be positive *)
| ApiKeyMissing      (* OPENAI_API_KEY environment variable is required *)
| BudgetSpent.       (* Maximum LLM calls reached *)

Inductive error : Type :=
| PyValueError (why : reason)
| PyImportError      (* the openai package is not installed *)
| PyAPIError         (* [openai.ChatCompletion.create] raises *)
| PyResponseError    (* reading [choices[0].message.content] raises *)
| PyOSError.         (* [exists()], [rglob], [is_file()], [stat()], [mkdir()] or
                        [write_text()] raises *)

#[global] Instance reason_eq_dec : EqDecision reason.
Proof. solve_decision. Defined.

#[global] Instance error_eq_dec : EqDecision error.
Proof. solve_decision. Defined.

(** The exceptions of the analyzer among those of the bot. *)
Definition error_of_exn (e : exn) : error :=
  match e with
  | ValueError => PyValueError PathMissing
  | OSError => PyOSError
  end.

Inductive ended (A : Type) : Type :=
| Normal (a : A)
| Raised (e : error).
Arguments Normal {A} a.
Arguments Raised {A} e.

(** A method over state [S]. *)
Definition method (S A : Type) : Type := S → S * ended A.

#[global] Instance method_ret {S} : MRet (method S) := λ A a s, (s, Normal a).
#[global] Instance method_bind {S} : MBind (method S) := λ A B k m s,
  match m s with
  | (s', Normal a) => k a s'
  | (s', Raised e) => (s', Raised e)
  end.

Definition raise {S A : Type} (e : error) : method S A := λ s, (s, Raised e).

(** One request to the chat completion API: the model and the two
    messages (temperature 0.3 and max_tokens 4000 are the same in all). *)
Record Request : Type := mkRequest {
  req_model : string;
  req_system : string;
  req_user : string
}.

(** What the API does with a request. *)
Inductive reply : Type :=
| Refused                  (* [create] raises *)
| Unreadable               (* it answers, and the answer has no content to read *)
| Content (text : string). (* it answers with this content *)

(** What lies outside the program. *)
Record World : Type := mkWorld {
  openai_installed : bool;             (* [openai is not None] *)
  environ : gmap string string;        (* [os.getenv] *)
  repository : RootKind;               (* what [exists()] and [rglob] find at the root *)
  present : PurePath.t → option bool;  (* [exists()] of any other path; [None]: it raises *)
  writable : PurePath.t → bool;        (* whether [mkdir] / [write_text] there succeeds *)
  api : nat → reply;                   (* what the API does with the n-th request *)
  requests : list Request;             (* the requests sent so far *)
  made_dirs : list PurePath.t;         (* the directories [mkdir] was asked for, with success *)
  written : list (PurePath.t * string) (* the files written so far, with their contents *)
}.

Definition send (q : Request) (w : World) : World :=
  mkWorld (openai_installed w) (environ w) (repository w) (present w)
          (writable w) (api w) (requests w ++ [q])%list (made_dirs w) (written w).
Definition log_mkdir (p : PurePath.t) (w : World) : World :=
  mkWorld (openai_installed w) (environ w) (repository w) (present w)
          (writable w) (api w) (requests w) (made_dirs w ++ [p])%list (written w).
Definition log_write (p : PurePath.t) (text : string) (w : World) : World :=
  mkWorld (openai_installed w) (environ w) (repository w) (present w)
          (writable w) (api w) (requests w) (made_dirs w)
          (written w ++ [(p, text)])%list.

Definition nl : string := String "010" "".

(** [RepositoryAnalyzer(repo_path)], the constructor of the analyzer. *)
Definition new_analyzer (root : RootKind) : outcome unit := __init__ root.

Module Generator.
(** The attributes of a [DocumentationGenerator]. *)
Record t : Type := mk {
  repo_path : PurePath.t;
  detail_level : string;
  max_llm_calls : Z;
  llm_calls_made : Z;
  model : string
}.
End Generator.

Module DocumentationGenerator.

(** The state a method of the generator runs in: [self] and the world. *)
Abbreviation state := (Generator.t * World)%type.

Definition get_self : method state Generator.t := λ s, (s, Normal (fst s)).

(** [self.llm_calls_made += 1] *)
Definition count_call : method state unit := λ '(self, w),
  ((Generator.mk (Generator.repo_path self) (Generator.detail_level self)
      (Generator.max_llm_calls self) (Generator.llm_calls_made self + 1)
      (Generator.model self), w), Normal ()).

(** [openai.ChatCompletion.create(...)]: the response, as the content
    that can be read from it, if any. *)
Definition chat_completion (q : Request) : method state (option string) :=
  λ '(self, w),
  match api w (length (requests w)) with
  | Refused => ((self, send q w), Raised PyAPIError)
  | Unreadable => ((self, send q w), Normal None)
  | Content text => ((self, send q w), Normal (Some text))
  end.

(** [response.choices[0].message.content] *)
Definition message_content (response : option string) : method state string :=
  match response with
  | Some text => mret text
  | None => raise PyResponseError
  end.

(** [path.mkdir(exist_ok=True)] *)
Definition mkdir (p : PurePath.t) : method state unit := λ '(self, w),
  if writable w p then ((self, log_mkdir p w), Normal ())
  else ((self, w), Raised PyOSError).

(** [path.write_text(text)] *)
Definition write_text (p : PurePath.t) (text : string) : method state unit :=
  λ '(self, w),
  if writable w p then ((self, log_write p text w), Normal ())
  else ((self, w), Raised PyOSError).

(** [DocumentationGenerator.__init__], lines 149-166. *)
Definition __init__ (repo_path : PurePath.t) (detail_level : string)
    (max_llm_calls : Z) (w : World) : ended Generator.t :=
  if negb (openai_installed w) then Raised PyImportError
  else
    let api_key := environ w !! "OPENAI_API_KEY" in
    match api_key with
    | None | Some EmptyString => Raised (PyValueError ApiKeyMissing)
    | Some _ =>
        Normal (Generator.mk repo_path detail_level max_llm_calls 0
                  (default "gpt-4" (environ w !! "OPENAI_MODEL")))
    end.

(** [_call_llm], lines 210-233. *)
Definition _call_llm (system_prompt user_prompt : string) : method state string :=
  self ← get_self;
  if Generator.max_llm_calls self <=? Generator.llm_calls_made self
  then raise (PyValueError BudgetSpent)
  else
    response ← chat_completion
                 (mkRequest (Generator.model self) system_prompt user_prompt);
    _ ← count_call;
    message_content response.

(** The dictionary of [_get_readme_system_prompt]. *)
Definition detail_instructions : gmap string string :=
  list_to_map
    [("low", "Provide a basic overview with minimal technical details.");
     ("medium", "Include setup instructions, basic usage, and key features.");
     ("high", "Include detailed setup instructions, code examples, architecture overview, and comprehensive feature documentation.")].

(** [_prepare_readme_context], lines 235-253. *)
Definition _prepare_readme_context (self : Generator.t) (analysis : Result (list string)) : string :=
  PyStr.join nl
    ["";
     "Repository Analysis:";
     "- Project Type: " +:+ project_type analysis;
     "- Languages: " +:+ PyStr.join ", " (languages analysis);
     "- File Types: " +:+ PyStr.join ", " (file_types analysis);
     "- Main Files: " +:+ PyStr.join ", " (main_files analysis);
     "- Config Files: " +:+ PyStr.join ", " (config_files analysis);
     "- Dependencies: " +:+ PyStr.join ", " (dependencies analysis);
     "";
     "Repository Structure:";
     PyStr.join nl (structure analysis);
     "";
     "Detail Level: " +:+ Generator.detail_level self;
     "";
     "Please generate a comprehensive README.md file for this repository.";
     ""].

(** [_get_readme_system_prompt], lines 255-277. *)
Definition _get_readme_system_prompt (self : Generator.t) : string :=
  PyStr.join nl
    ["You are an expert technical writer creating README.md files for software projects.";
     "";
     "Detail Level: " +:+ Generator.detail_level self;
     "Instructions: " +:+ default (detail_instructions !!! "medium") (detail_instructions !! Generator.detail_level self);
     "";
     "Create a well-structured README.md that includes:";
     "1. Project title and description";
     "2. Features and capabilities";
     "3. Installation and setup instructions";
     "4. Usage examples";
     "5. Project structure overview";
     "6. Contributing guidelines (if applicable)";
     "7. License information (if available)";
     "";
     "Use proper Markdown formatting and make it professional and informative."].

(** [_prepare_architecture_context], lines 335-347. *)
Definition _prepare_architecture_context (self : Generator.t) (analysis : Result (list string)) : string :=
  PyStr.join nl
    ["";
     "Repository Analysis for Architecture Documentation:";
     "- Project Type: " +:+ project_type analysis;
     "- Languages: " +:+ PyStr.join ", " (languages analysis);
     "- Main Files: " +:+ PyStr.join ", " (main_files analysis);
     "- File Structure: " +:+ PyStr.join nl (structure analysis);
     "";
     "Detail Level: " +:+ Generator.detail_level self;
     "";
     "Generate comprehensive architecture documentation including system design, component relationships, and data flow.";
     ""].

(** [_get_architecture_system_prompt], lines 349-361. *)
Definition _get_architecture_system_prompt : string :=
  PyStr.join nl
    ["You are an expert software architect creating architecture documentation.";
     "";
     "Create detailed architecture documentation that includes:";
     "1. System overview and high-level design";
     "2. Component architecture and relationships";
     "3. Data flow and processing";
     "4. Technology stack and dependencies";
     "5. Deployment architecture (if applicable)";
     "6. Security considerations (if applicable)";
     "";
     "Use clear diagrams in text format (ASCII art) and provide comprehensive technical details."].

(** [_prepare_api_context], lines 363-374. *)
Definition _prepare_api_context (self : Generator.t) (analysis : Result (list string)) : string :=
  PyStr.join nl
    ["";
     "Repository Analysis for API Documentation:";
     "- Project Type: " +:+ project_type analysis;
     "- Languages: " +:+ PyStr.join ", " (languages analysis);
     "- Main Files: " +:+ PyStr.join ", " (main_files analysis);
     "";
     "Detail Level: " +:+ Generator.detail_level self;
     "";
     "Generate comprehensive API documentation including endpoints, parameters, and usage examples.";
     ""].

(** [_get_api_system_prompt], lines 376-389. *)
Definition _get_api_system_prompt : string :=
  PyStr.join nl
    ["You are an expert API documentation writer.";
     "";
     "Create comprehensive API documentation that includes:";
     "1. API overview and purpose";
     "2. Authentication methods (if applicable)";
     "3. Endpoint documentation with parameters";
     "4. Request/response examples";
     "5. Error handling";
     "6. Rate limiting (if applicable)";
     "7. SDK examples (if applicable)";
     "";
     "Use clear examples and provide practical usage scenarios."].

(** [_prepare_setup_context], lines 391-402. *)
Definition _prepare_setup_context (self : Generator.t) (analysis : Result (list string)) : string :=
  PyStr.join nl
    ["";
     "Repository Analysis for Setup Documentation:";
     "- Project Type: " +:+ project_type analysis;
     "- Dependencies: " +:+ PyStr.join ", " (dependencies analysis);
     "- Config Files: " +:+ PyStr.join ", " (config_files analysis);
     "";
     "Detail Level: " +:+ Generator.detail_level self;
     "";
     "Generate detailed setup and installation documentation.";
     ""].

(** [_get_setup_system_prompt], lines 404-417. *)
Definition _get_setup_system_prompt : string :=
  PyStr.join nl
    ["You are an expert DevOps engineer creating setup documentation.";
     "";
     "Create comprehensive setup documentation that includes:";
     "1. Prerequisites and system requirements";
     "2. Installation steps";
     "3. Configuration setup";
     "4. Environment variables";
     "5. Database setup (if applicable)";
     "6. Testing the installation";
     "7. Troubleshooting common issues";
     "";
     "Provide step-by-step instructions that are easy to follow."].

(** [_prepare_usage_context], lines 419-430. *)
Definition _prepare_usage_context (self : Generator.t) (analysis : Result (list string)) : string :=
  PyStr.join nl
    ["";
     "Repository Analysis for Usage Documentation:";
     "- Project Type: " +:+ project_type analysis;
     "- Main Files: " +:+ PyStr.join ", " (main_files analysis);
     "- Languages: " +:+ PyStr.join ", " (languages analysis);
     "";
     "Detail Level: " +:+ Generator.detail_level self;
     "";
     "Generate comprehensive usage documentation with examples and best practices.";
     ""].

(** [_get_usage_system_prompt], lines 432-445. *)
Definition _get_usage_system_prompt : string :=
  PyStr.join nl
    ["You are an expert software developer creating usage documentation.";
     "";
     "Create comprehensive usage documentation that includes:";
     "1. Getting started guide";
     "2. Basic usage examples";
     "3. Advanced features and configurations";
     "4. Best practices and patterns";
     "5. Common use cases";
     "6. Performance optimization tips";
     "7. Integration examples";
     "";
     "Provide practical examples and real-world scenarios."].

(** [generate_readme], lines 168-188. *)
Definition generate_readme (analysis : Result (list string)) : method state unit :=
  self ← get_self;
  if Generator.max_llm_calls self <=? Generator.llm_calls_made self
  then mret ()
  else
    let context := _prepare_readme_context self analysis in
    readme_content ← _call_llm (_get_readme_system_prompt self) context;
    let readme_path := (Generator.repo_path self ++ ["README.md"])%list in
    write_text readme_path readme_content.

(** [_generate_architecture_doc], lines 279-291. *)
Definition _generate_architecture_doc (analysis : Result (list string))
    (docs_path : PurePath.t) : method state unit :=
  self ← get_self;
  if Generator.max_llm_calls self <=? Generator.llm_calls_made self
  then mret ()
  else
    let context := _prepare_architecture_context self analysis in
    content ← _call_llm _get_architecture_system_prompt context;
    let arch_path := (docs_path ++ ["architecture.md"])%list in
    write_text arch_path content.

(** [_generate_api_doc], lines 293-305. *)
Definition _generate_api_doc (analysis : Result (list string))
    (docs_path : PurePath.t) : method state unit :=
  self ← get_self;
  if Generator.max_llm_calls self <=? Generator.llm_calls_made self
  then mret ()
  else
    let context := _prepare_api_context self analysis in
    content ← _call_llm _get_api_system_prompt context;
    let api_path := (docs_path ++ ["api.md"])%list in
    write_text api_path content.

(** [_generate_setup_doc], lines 307-319. *)
Definition _generate_setup_doc (analysis : Result (list string))
    (docs_path : PurePath.t) : method state unit :=
  self ← get_self;
  if Generator.max_llm_calls self <=? Generator.llm_calls_made self
  then mret ()
  else
    let context := _prepare_setup_context self analysis in
    content ← _call_llm _get_setup_system_prompt context;
    let setup_path := (docs_path ++ ["setup.md"])%list in
    write_text setup_path content.

(** [_generate_usage_doc], lines 321-333. *)
Definition _generate_usage_doc (analysis : Result (list string))
    (docs_path : PurePath.t) : method state unit :=
  self ← get_self;
  if Generator.max_llm_calls self <=? Generator.llm_calls_made self
  then mret ()
  else
    let context := _prepare_usage_context self analysis in
    content ← _call_llm _get_usage_system_prompt context;
    let usage_path := (docs_path ++ ["usage.md"])%list in
    write_text usage_path content.

(** [generate_documentation_files], lines 190-208. *)
Definition generate_documentation_files (analysis : Result (list string))
  : method state unit :=
  self ← get_self;
  if Generator.max_llm_calls self <=? Generator.llm_calls_made self
  then mret ()
  else
    let docs_path := (Generator.repo_path self ++ ["docs"])%list in
    _ ← mkdir docs_path;
    _ ← _generate_architecture_doc analysis docs_path;
    _ ← _generate_api_doc analysis docs_path;
    _ ← _generate_setup_doc analysis docs_path;
    _generate_usage_doc analysis docs_path.

End DocumentationGenerator.

Module Bot.
(** The attributes of a [DocumentationBot]; the analyzer it holds is its
    [repo_path]. *)
Record t : Type := mk {
  repo_path : PurePath.t;
  detail_level : string;
  max_llm_calls : Z;
  generator : option Generator.t
}.
End Bot.

Module DocumentationBot.

Abbreviation state := (Bot.t * World)%type.

(** [DocumentationBot.__init__], lines 451-470. The analyzer's constructor
    runs last and repeats the existence check. *)
Definition __init__ (repo_path : PurePath.t) (detail_level : string)
    (max_llm_calls : Z) (w : World) : ended Bot.t :=
  match path_exists (repository w) with
  | Raise e => Raised (error_of_exn e)
  | Return found =>
      if negb found then Raised (PyValueError PathMissing)
      else if negb (bool_decide (detail_level ∈ ["low"; "medium"; "high"]))
      then Raised (PyValueError BadDetailLevel)
      else if max_llm_calls <=? 0 then Raised (PyValueError BadMaxCalls)
      else
        match new_analyzer (repository w) with
        | Raise e => Raised (error_of_exn e)
        | Return _ => Normal (Bot.mk repo_path detail_level max_llm_calls None)
        end
  end.

(** [_get_generator], lines 472-476. *)
Definition _get_generator : method state Generator.t := λ '(self, w),
  match Bot.generator self with
  | Some g => ((self, w), Normal g)
  | None =>
      match DocumentationGenerator.__init__ (Bot.repo_path self)
              (Bot.detail_level self) (Bot.max_llm_calls self) w with
      | Normal g =>
          ((Bot.mk (Bot.repo_path self) (Bot.detail_level self)
              (Bot.max_llm_calls self) (Some g), w), Normal g)
      | Raised e => ((self, w), Raised e)
      end
  end.

(** [self.analyzer.analyze()] *)
Definition analyzer_analyze : method state (Result (list string)) := λ '(self, w),
  match analyze (Bot.repo_path self) (repository w) with
  | Return analysis => ((self, w), Normal analysis)
  | Raise e => ((self, w), Raised (error_of_exn e))
  end.

(** A method call on the generator object [g]: the bot's [generator]
    attribute is that same object, so it shows what the method did to it. *)
Definition call {A : Type} (g : Generator.t)
    (m : method DocumentationGenerator.state A) : method state A := λ '(self, w),
  let '((g', w'), r) := m (g, w) in
  ((Bot.mk (Bot.repo_path self) (Bot.detail_level self)
      (Bot.max_llm_calls self) (Some g'), w'), r).

(** [readme_path.exists()], line 490 *)
Definition readme_exists : method state bool := λ '(self, w),
  match present w (Bot.repo_path self ++ ["README.md"])%list with
  | Some found => ((self, w), Normal found)
  | None => ((self, w), Raised PyOSError)
  end.

(** [generate_documentation], lines 478-505: the [except] clause logs and
    raises the exception again. *)
Definition generate_documentation : method state unit :=
  analysis ← analyzer_analyze;
  found ← readme_exists;
  _ ← (if negb found
       then generator ← _get_generator;
            call generator (DocumentationGenerator.generate_readme analysis)
       else mret ());
  generator ← _get_generator;
  call generator (DocumentationGenerator.generate_documentation_files analysis).

End DocumentationBot.

(** ** Vocabulary for the generator *)

(** The generator with its counter at [n] and nothing else changed. *)
Definition with_calls (g : Generator.t) (n : Z) : Generator.t :=
  Generator.mk (Generator.repo_path g) (Generator.detail_level g)
    (Generator.max_llm_calls g) n (Generator.model g).

(** The calls the budget still allows. *)
Definition remaining (g : Generator.t) : Z :=
  Z.max 0 (Generator.max_llm_calls g - Generator.llm_calls_made g).

(** Nothing but the logs of requests, directories and files differs. *)
Definition same_outside (w w' : World) : Prop :=
  openai_installed w' = openai_installed w ∧ environ w' = environ w
  ∧ repository w' = repository w ∧ present w' = present w
  ∧ writable w' = writable w ∧ api w' = api w.

(** One for a request that the API refused, which the counter misses. *)
Definition refused {A : Type} (r : ended A) : Z :=
  match r with
  | Raised PyAPIError => 1
  | _ => 0
  end.

(** What a method of the generator may do when it is allowed [n]
    requests and the files [targets]: it sends at most [n] requests and
    no more than the budget allows, counts those the API answered,
    writes only to [targets] and at most one file per request, changes
    only the counter of the generator, and ends normally or with an
    exception of the API, of the response or of the filesystem. *)
Definition Effects (n : nat) (targets : list PurePath.t)
    (s : Generator.t * World) (out : (Generator.t * World) * ended unit) : Prop :=
  match s, out with
  | (g, w), ((g', w'), r) =>
      ∃ sent dirs files,
        requests w' = (requests w ++ sent)%list
        ∧ made_dirs w' = (made_dirs w ++ dirs)%list
        ∧ written w' = (written w ++ files)%list
        ∧ same_outside w w'
        ∧ g' = with_calls g (Generator.llm_calls_made g')
        ∧ (length sent ≤ n)%nat
        ∧ Z.of_nat (length sent)
          = Generator.llm_calls_made g' - Generator.llm_calls_made g + refused r
        ∧ Generator.llm_calls_made g ≤ Generator.llm_calls_made g'
        ∧ (sent ≠ [] →
           Generator.llm_calls_made g' + refused r ≤ Generator.max_llm_calls g)
        ∧ (length files ≤ length sent)%nat
        ∧ Forall (λ f, f.1 ∈ targets) files
        ∧ (r = Normal () ∨ r = Raised PyAPIError ∨ r = Raised PyResponseError
           ∨ r = Raised PyOSError)
  end.

(** The outcome of the step every generating method makes: nothing when
    the budget is spent; else one request, counted when the API answers
    it, and the content written to [path]. *)
Definition step_outcome (q : Request) (path : PurePath.t) (g : Generator.t)
    (w : World) : (Generator.t * World) * ended unit :=
  if Generator.max_llm_calls g <=? Generator.llm_calls_made g
  then ((g, w), Normal ())
  else
    match api w (length (requests w)) with
    | Refused => ((g, send q w), Raised PyAPIError)
    | Unreadable =>
        ((with_calls g (Generator.llm_calls_made g + 1), send q w),
         Raised PyResponseError)
    | Content text =>
        if writable w path
        then ((with_calls g (Generator.llm_calls_made g + 1),
               log_write path text (send q w)), Normal ())
        else ((with_calls g (Generator.llm_calls_made g + 1), send q w),
              Raised PyOSError)
    end.

(** A method keeps the budget when it sends at most [limit] requests and
    no more than the budget still allows, counts exactly those the API
    answered, leaves the budget itself alone and does not end with the
    budget error of [_call_llm]. *)
Definition KeepsBudget (limit : nat) (s : Generator.t * World)
    (out : (Generator.t * World) * ended unit) : Prop :=
  match s, out with
  | (g, w), ((g', w'), r) =>
      ∃ sent,
        requests w' = (requests w ++ sent)%list
        ∧ (length sent ≤ limit)%nat
        ∧ Z.of_nat (length sent) ≤ remaining g
        ∧ Generator.llm_calls_made g'
          = Generator.llm_calls_made g + Z.of_nat (length sent) - refused r
        ∧ Generator.llm_calls_made g'
          ≤ Z.max (Generator.llm_calls_made g) (Generator.max_llm_calls g)
        ∧ Generator.max_llm_calls g' = Generator.max_llm_calls g
        ∧ r ≠ Raised (PyValueError BudgetSpent)
  end.

(** The requests and files of [generate_documentation_files], in the
    order of the source. *)
Definition doc_plan (a : Result (list string)) (g : Generator.t)
  : list (Request * PurePath.t) :=
  let docs := (Generator.repo_path g ++ ["docs"])%list in
  [(mkRequest (Generator.model g)
      DocumentationGenerator._get_architecture_system_prompt
      (DocumentationGenerator._prepare_architecture_context g a),
    (docs ++ ["architecture.md"])%list);
   (mkRequest (Generator.model g)
      DocumentationGenerator._get_api_system_prompt
      (DocumentationGenerator._prepare_api_context g a),
    (docs ++ ["api.md"])%list);
   (mkRequest (Generator.model g)
      DocumentationGenerator._get_setup_system_prompt
      (DocumentationGenerator._prepare_setup_context g a),
    (docs ++ ["setup.md"])%list);
   (mkRequest (Generator.model g)
      DocumentationGenerator._get_usage_system_prompt
      (DocumentationGenerator._prepare_usage_context g a),
    (docs ++ ["usage.md"])%list)].

(** Steps made one after the other, until one raises. *)
Fixpoint run_plan (plan : list (Request * PurePath.t))
    (s : Generator.t * World) : (Generator.t * World) * ended unit :=
  match plan with
  | [] => (s, Normal ())
  | (q, path) :: rest =>
      match step_outcome q path s.1 s.2 with
      | (s', Normal _) => run_plan rest s'
      | out => out
      end
  end.

(** The files a plan writes when the API answers [c 0], [c 1], ... *)
Fixpoint plan_files (plan : list (Request * PurePath.t)) (c : nat → string)
  : list (PurePath.t * string) :=
  match plan with
  | [] => []
  | (_, path) :: rest => (path, c O) :: plan_files rest (λ i, c (S i))
  end.

(** The four files of the docs directory. *)
Definition docs_targets (repo_path : PurePath.t) : list PurePath.t :=
  [(repo_path ++ ["docs"; "architecture.md"])%list;
   (repo_path ++ ["docs"; "api.md"])%list;
   (repo_path ++ ["docs"; "setup.md"])%list;
   (repo_path ++ ["docs"; "usage.md"])%list].


(** ** Vocabulary for the bot *)

(** The generator [_get_generator] answers with: the one the bot holds,
    or a new one. *)
Definition obtain_generator (bot : Bot.t) (w : World) : ended Generator.t :=
  match Bot.generator bot with
  | Some g => Normal g
  | None =>
      DocumentationGenerator.__init__ (Bot.repo_path bot) (Bot.detail_level bot)
        (Bot.max_llm_calls bot) w
  end.

(** The bot holding generator [g]. *)
Definition holding (bot : Bot.t) (g : Generator.t) : Bot.t :=
  Bot.mk (Bot.repo_path bot) (Bot.detail_level bot) (Bot.max_llm_calls bot)
    (Some g).

(** The counter of the bot's generator has not passed the budget. *)
Definition WithinBudget (bot : Bot.t) : Prop :=
  match Bot.generator bot with
  | Some g => Generator.llm_calls_made g ≤ Generator.max_llm_calls g
  | None => 0 ≤ Bot.max_llm_calls bot
  end.

(** * setup.py *)

(** Iterating over a text file: its lines, each with its line break; the
    end of the text after the last line break is a line only when it is
    not empty. *)
Fixpoint with_breaks (pieces : list string) : list string :=
  match pieces with
  | [] => []
  | [last] => if String.eqb last "" then [] else [last]
  | piece :: rest => (piece +:+ nl) :: with_breaks rest
  end.

Definition iter_lines (text : string) : list string :=
  with_breaks (PyStr.split "010" text).

(** [read_requirements] of setup.py, lines 15-17; [file] is the text of
    requirements.txt, [None] when it cannot be opened or decoded. *)
Definition read_requirements (file : option string) : ended (list string) :=
  match file with
  | None => Raised PyOSError
  | Some text =>
      Normal
        (PyStr.strip <$>
           List.filter
             (λ line, negb (String.eqb (PyStr.strip line) "")
                      && negb (PyStr.startswith line "#"))
             (iter_lines text))
  end.

(** The test of setup.py on the pieces of the text, line breaks apart. *)
Definition kept_by_setup (piece : string) : bool :=
  negb (String.eqb (PyStr.strip piece) "") && negb (PyStr.startswith piece "#").

(** A line that setup.py keeps: something is left of it when it is
    trimmed, and the line itself, before trimming, does not start with
    '#'. *)
Definition SetupLine (line : string) : Prop :=
  PyStr.strip line ≠ "" ∧ ¬ StartsWith "#" line.

#[global] Instance SetupLine_dec line : Decision (SetupLine line).
Proof. unfold SetupLine. apply _. Defined.


(** ** Sample worlds *)

Definition sample_head : list Byte.byte := replicate 1024 Byte.x61.

Definition sample_clean : Entry :=
  mkEntry ["data.bin"] (Some true) (Some 1025)
    (Some (sample_head ++ [Byte.x61])%list) None.

Definition sample_late_null : Entry :=
  mkEntry ["data.bin"] (Some true) (Some 1025)
    (Some (sample_head ++ [Byte.x00])%list) None.

Definition sample_analysis : Result (list string) :=
  mkResult [".py"] ["Python"] ["src/small.py"] [] [] [] "Python".

(** A world with the package and a key, an API that answers every
    request, and a filesystem that accepts every write. *)
Definition sample_world : World :=
  mkWorld true {["OPENAI_API_KEY" := "sk-test"]} (Directory [sample_small])
    (λ _, Some false) (λ _, true) (λ _, Content "text") [] [] [].

(** The same world without the key. *)
Definition sample_world_no_key : World :=
  mkWorld true ∅ (Directory [sample_small])
    (λ _, Some true) (λ _, true) (λ _, Content "text") [] [] [].

Definition sample_generator : Generator.t :=
  Generator.mk ["home"; "repo"] "medium" 2 0 "gpt-4".

Definition sample_bot : Bot.t := Bot.mk ["home"; "repo"] "medium" 2 None.

(** * Facts about the string operations *)

Module PyStrFacts.
Import PyStr.

Lemma app_cons a s t : String a s +:+ t = String a (s +:+ t).
Proof. reflexivity. Qed.

Lemma app_empty_l s : "" +:+ s = s.
Proof. reflexivity. Qed.

Lemma app_empty_r s : s +:+ "" = s.
Proof. induction s as [|a s IH]; [done|]. by rewrite app_cons, IH. Qed.

Lemma app_eq_empty s t : s +:+ t = "" → s = "" ∧ t = "".
Proof. destruct s; [done|]. rewrite app_cons. discriminate. Qed.

Lemma prefix_spec p s : String.prefix p s = true ↔ ∃ t, s = p +:+ t.
Proof.
  revert s. induction p as [|a p IH]; intros s.
  - split; [intros _; exists s; reflexivity|]. by destruct s.
  - destruct s as [|b s]; simpl.
    + split; [done|]. intros [t Ht]. rewrite app_cons in Ht. discriminate.
    + destruct (ascii_dec a b) as [->|Hab].
      * rewrite IH. split; intros [t Ht]; exists t.
        -- rewrite app_cons. by f_equal.
        -- rewrite app_cons in Ht. congruence.
      * split; [done|]. intros [t Ht]. rewrite app_cons in Ht. congruence.
Qed.

Lemma startswith_spec s p : startswith s p = true ↔ ∃ t, s = p +:+ t.
Proof. apply prefix_spec. Qed.

Lemma contains_spec sub s :
  contains sub s = true ↔ ∃ pre post, s = pre +:+ sub +:+ post.
Proof.
  induction s as [|a s IH]; cbn [contains].
  - rewrite orb_false_r, prefix_spec. split.
    + intros [t Ht]. by exists "", t.
    + intros (pre & post & H). symmetry in H.
      apply app_eq_empty in H as [-> H]. exists post. by rewrite H.
  - rewrite orb_true_iff, prefix_spec, IH. split.
    + intros [[t Ht]|(pre & post & H)].
      * by exists "", t.
      * exists (String a pre), post. rewrite app_cons. by f_equal.
    + intros ([|b pre] & post & H).
      * left. by exists post.
      * right. rewrite app_cons in H. exists pre, post. congruence.
Qed.

(** [lstrip] removes a blank prefix and stops at the first character
    that is not white space. *)
Lemma lstrip_spec s :
  ∃ l, s = l +:+ lstrip s ∧ blank l ∧
       (lstrip s = "" ∨ ∃ c t, lstrip s = String c t ∧ is_space c = false).
Proof.
  induction s as [|a s (l & Hl & Hb & Hs)]; simpl.
  - exists "". repeat split; auto.
  - destruct (is_space a) eqn:Ha.
    + exists (String a l). rewrite app_cons, <- Hl. simpl. repeat split; auto.
    + exists "". repeat split; eauto.
Qed.

Lemma rstrip_head c s :
  is_space c = false → ∃ t, rstrip (String c s) = String c t.
Proof. intros Hc. simpl. rewrite Hc. destruct (rstrip s); eauto. Qed.

(** [rstrip] removes a blank suffix and leaves no trailing white space. *)
Lemma rstrip_spec s :
  ∃ r, s = rstrip s +:+ r ∧ blank r ∧
       (rstrip s = "" ∨
        ∃ t c, rstrip s = t +:+ String c "" ∧ is_space c = false).
Proof.
  induction s as [|a s (r & Hr & Hb & Hs)]; simpl.
  - exists "". repeat split; auto.
  - destruct (rstrip s) as [|b u] eqn:Hu.
    + rewrite app_empty_l in Hr. subst r.
      destruct (is_space a) eqn:Ha.
      * exists (String a s). simpl. repeat split; auto.
      * exists s. repeat split; [done|]. right. by exists "", a.
    + exists r. rewrite app_cons, <- Hr. repeat split; [done|]. right.
      destruct Hs as [|(t & c & Ht & Hc)]; [done|].
      exists (String a t), c. rewrite app_cons, <- Ht. done.
Qed.

(** [strip] returns the line with white space removed at both ends and
    nothing else changed. *)
Lemma strip_spec s :
  ∃ l r, s = l +:+ strip s +:+ r ∧ blank l ∧ blank r ∧
         (strip s = "" ∨
          (∃ c t, strip s = String c t ∧ is_space c = false) ∧
          (∃ t c, strip s = t +:+ String c "" ∧ is_space c = false)).
Proof.
  unfold strip.
  destruct (lstrip_spec s) as (l & Hl & Hbl & Hs).
  destruct (rstrip_spec (lstrip s)) as (r & Hr & Hbr & Ht).
  exists l, r. rewrite <- Hr. repeat split; [done..|].
  destruct Ht as [Ht|Ht]; [by left|right]. split; [|done].
  destruct Hs as [Hs|(c & t & Hs & Hc)].
  - rewrite Hs in Ht. simpl in Ht. destruct Ht as ([|??] & ? & ? & _); done.
  - rewrite Hs. destruct (rstrip_head c t Hc) as [u ->]. eauto.
Qed.

Lemma split_nonempty sep s : split sep s ≠ [].
Proof.
  destruct s as [|a s]; simpl; [done|].
  destruct (Ascii.eqb a sep); [done|]. by destruct (split sep s).
Qed.

(** Joining the pieces of [split] with the separator gives the text back. *)
Lemma join_split sep s : join (String sep "") (split sep s) = s.
Proof.
  unfold join. induction s as [|a s IH]; [done|]. simpl split.
  destruct (Ascii.eqb_spec a sep) as [->|Hne].
  - pose proof (split_nonempty sep s).
    destruct (split sep s) as [|l ls] eqn:E; [done|].
    change (String.concat (String sep "") ("" :: l :: ls))
      with ("" +:+ String sep "" +:+ String.concat (String sep "") (l :: ls)).
    by rewrite IH.
  - pose proof (split_nonempty sep s).
    destruct (split sep s) as [|l ls] eqn:E; [done|].
    destruct ls as [|l' ls].
    + simpl in *. by rewrite IH.
    + change (String.concat (String sep "") (l :: l' :: ls))
        with (l +:+ String sep "" +:+ String.concat (String sep "") (l' :: ls)) in IH.
      change (String.concat (String sep "") (String a l :: l' :: ls))
        with (String a l +:+ String sep "" +:+ String.concat (String sep "") (l' :: ls)).
      by rewrite app_cons, IH.
Qed.

(** No piece of [split] holds the separator. *)
Lemma split_no_sep sep s : Forall (λ l, ¬ occurs sep l) (split sep s).
Proof.
  induction s as [|a s IH]; simpl.
  - repeat constructor. auto.
  - destruct (Ascii.eqb_spec a sep) as [->|Hne].
    + constructor; auto.
    + destruct (split sep s) as [|l ls]; [repeat constructor; simpl; tauto|].
      inversion IH; subst. constructor; [|done]. simpl. tauto.
Qed.

Lemma lower_length s : String.length (lower s) = String.length s.
Proof. induction s; simpl; congruence. Qed.

End PyStrFacts.

(** The test of the dependency loop keeps exactly the dependency lines. *)
Lemma is_dependency_spec line : is_dependency line = true ↔ DependencyLine line.
Proof.
  unfold is_dependency, DependencyLine, StartsWith, Substring.
  rewrite !andb_true_iff, !negb_true_iff, PyStrFacts.contains_spec.
  rewrite <- !not_true_iff_false, PyStrFacts.startswith_spec, String.eqb_eq.
  tauto.
Qed.

(** * The ignore policy *)

Section PolicyFacts.

Variable repo_path : PurePath.t.

Lemma no_ignored_part_spec (p : PurePath.t) :
  existsb (λ part, bool_decide (part ∈ ignore_dirs)) p = false
  ↔ ∀ part, part ∈ p → part ∉ ignore_dirs.
Proof.
  rewrite <- not_true_iff_false, existsb_exists. split.
  - intros H part Hin Hbad. apply H. exists part.
    split; [by apply list_elem_of_In | by apply bool_decide_eq_true].
  - intros H (part & Hin & Hbad). apply (H part).
    + by apply list_elem_of_In.
    + by apply bool_decide_eq_true in Hbad.
Qed.

Lemma no_null_byte_spec (chunk : list Byte.byte) :
  existsb (Byte.eqb Byte.x00) chunk = false ↔ Byte.x00 ∉ chunk.
Proof.
  rewrite <- not_true_iff_false, existsb_exists. split.
  - intros H Hin. apply H. exists Byte.x00.
    split; [by apply list_elem_of_In | by apply Byte.byte_dec_lb].
  - intros H (b & Hin & Hb). apply Byte.byte_dec_bl in Hb. subst b.
    by apply H, list_elem_of_In.
Qed.

(** The components [_should_ignore_file] tests are those of the root
    path and those of the file below it. *)
Lemma parts_clear (e : Entry) :
  (∀ part, part ∈ parts repo_path e → part ∉ ignore_dirs)
  ↔ RootClear repo_path ∧ ∀ part, part ∈ rel e → part ∉ ignored_names.
Proof.
  unfold parts, RootClear. change ignored_names with ignore_dirs. split.
  - intros H. split; intros part Hin; apply H, elem_of_app; auto.
  - intros [H1 H2] part [Hin|Hin]%elem_of_app; auto.
Qed.

(** [_should_ignore_file] answers [False] exactly on the files that pass
    the policy, under a root path that has no ignored component
    itself. *)
Lemma should_ignore_false (e : Entry) :
  _should_ignore_file repo_path e = Return false
  ↔ RootClear repo_path ∧ PassesPolicy e.
Proof.
  unfold PassesPolicy.
  transitivity
    ((∀ part, part ∈ parts repo_path e → part ∉ ignore_dirs)
     ∧ (∃ n, st_size e = Some n ∧ n ≤ 1048576)
     ∧ (∃ bytes, content e = Some bytes ∧ Byte.x00 ∉ take 1024 bytes));
    [|rewrite parts_clear; tauto].
  unfold _should_ignore_file, stat_size.
  destruct (existsb _ (parts repo_path e)) eqn:Hparts.
  - split; [done|]. intros [H _].
    rewrite <- no_ignored_part_spec in H. congruence.
  - rewrite no_ignored_part_spec in Hparts.
    destruct (st_size e) as [n|]; simpl.
    2:{ split; [done|]. by intros (_ & (? & ? & _) & _). }
    destruct (Z.ltb_spec (1024 * 1024) n).
    { split; [done|]. intros (_ & (m & [= <-] & ?) & _). lia. }
    destruct (content e) as [bytes|].
    2:{ split; [done|]. by intros (_ & _ & (? & ? & _)). }
    destruct (existsb _ (take 1024 bytes)) eqn:Hnull.
    + split; [done|]. intros (_ & _ & (b & [= <-] & Hb)).
      rewrite <- no_null_byte_spec in Hb. congruence.
    + rewrite no_null_byte_spec in Hnull.
      split; [intros _|done]. split_and!; [done|exists n|exists bytes]; split; [done|lia|done..].
Qed.

(** It raises exactly when the size check is reached and [stat()] fails;
    a failing [open()] or [read()] never raises. *)
Lemma should_ignore_raise (e : Entry) (x : exn) :
  _should_ignore_file repo_path e = Raise x
  ↔ x = OSError
    ∧ (∀ part, part ∈ parts repo_path e → part ∉ ignore_dirs)
    ∧ st_size e = None.
Proof.
  unfold _should_ignore_file, stat_size.
  destruct (existsb _ (parts repo_path e)) eqn:Hparts.
  - split; [done|]. intros (_ & H & _).
    rewrite <- no_ignored_part_spec in H. congruence.
  - rewrite no_ignored_part_spec in Hparts.
    destruct (st_size e) as [n|]; simpl.
    + split; [|by intros (_ & _ & ?)].
      destruct (1024 * 1024 <? n); [done|].
      destruct (content e); [|done]. by destruct (existsb _ _).
    + split; [by intros [= <-]|by intros (-> & _)].
Qed.

Lemma Retained_spec (e : Entry) :
  Retained repo_path e
  ↔ is_file e = Some true ∧ RootClear repo_path ∧ PassesPolicy e.
Proof. unfold Retained. by rewrite should_ignore_false. Qed.

(** Under a root path with an ignored component every file is ignored,
    before its size is asked for. *)
Lemma should_ignore_under_ignored_root (e : Entry) :
  ¬ RootClear repo_path → _should_ignore_file repo_path e = Return true.
Proof.
  intros Hroot. unfold _should_ignore_file.
  destruct (existsb _ (parts repo_path e)) eqn:Hparts; [done|].
  rewrite no_ignored_part_spec, parts_clear in Hparts. by destruct Hparts.
Qed.

End PolicyFacts.

(** * Classification of one file *)

Lemma decide_DependencyLine {T} line (a b : T) :
  (if decide (DependencyLine line) then a else b) = if is_dependency line then a else b.
Proof.
  destruct (is_dependency line) eqn:E.
  - rewrite decide_True; [done|]. by apply is_dependency_spec.
  - rewrite decide_False; [done|]. rewrite <- is_dependency_spec. congruence.
Qed.

Lemma scan_lines_spec lines (r : State) :
  fold_left scan_line lines r =
  mkResult (file_types r) (languages r) (structure r) (main_files r)
  (config_files r)
  (dependencies r ++ filter DependencyLine (PyStr.strip <$> lines))%list
  (project_type r).
Proof.
  revert r. induction lines as [|line lines IH]; intros r; simpl.
  - rewrite app_nil_r. by destruct r.
  - rewrite IH. unfold scan_line. rewrite filter_cons, decide_DependencyLine.
  destruct (is_dependency (PyStr.strip line)); simpl; [|done].
  by rewrite <- app_assoc.
Qed.

Lemma language_of_None ext :
  ext ∉ (fst <$> language_table) → language_of ext = None.
Proof.
  intros H. unfold language_of.
  destruct (List.find _ language_table) as [row|] eqn:E; [|done].
  apply find_some in E as [Hin Heq]. apply String.eqb_eq in Heq.
  exfalso. apply H. apply list_elem_of_fmap. exists row.
  split; [done|by apply list_elem_of_In].
Qed.

Ltac member_cases H :=
  repeat (apply elem_of_cons in H as [->|H]); [..|by apply elem_of_nil in H].

Ltac split_notin H :=
  repeat (apply not_elem_of_cons in H as [? H]); clear H.

Ltac prove_notin :=
  repeat (apply not_elem_of_cons; split; [done|]); apply not_elem_of_nil.

Ltac plain :=
  unfold add_language;
  cbn [file_types languages structure main_files config_files dependencies
     project_type];
  try destruct (bool_decide (_ ∨ _)); reflexivity.

Lemma _analyze_file_spec rp e (r : State) :
  _analyze_file rp e r =
  mkResult
  (file_types r)
  (match language_of (extension rp e) with
   | Some l => {[l]} ∪ languages r
   | None => languages r
   end)
  (structure r)
  (main_files r ++
     if bool_decide (filename rp e ∈ main_names) then [shown e] else [])%list
  (config_files r ++
     if bool_decide (filename rp e ∈ config_names) then [shown e] else [])%list
  (dependencies r ++ declared_dependencies rp e)%list
  (if bool_decide (project_type r = "" ∨ project_type r = "unknown")
   then default (project_type r) (primary_language (extension rp e))
   else project_type r).
Proof.
  unfold _analyze_file, declared_dependencies, dependency_lines.
  fold (filename rp e). fold (extension rp e). unfold relative_to. fold (shown e).
  assert (Hpt : ∀ lang (s : State),
  claim_project_type lang s =
  mkResult (file_types s) (languages s) (structure s) (main_files s)
    (config_files s) (dependencies s)
    (if bool_decide (project_type s = "" ∨ project_type s = "unknown")
     then lang else project_type s)).
  { intros lang s. unfold claim_project_type.
  destruct (String.eqb_spec (project_type s) ""); simpl.
  - rewrite bool_decide_eq_true_2 by auto. done.
  - destruct (String.eqb_spec (project_type s) "unknown"); simpl.
    + rewrite bool_decide_eq_true_2 by auto. done.
    + rewrite bool_decide_eq_false_2 by tauto. by destruct s. }
  set (r1 := if bool_decide (filename rp e ∈ main_names)
           then append_main_file (shown e) r else r).
  set (r2 := if bool_decide (filename rp e ∈ config_names)
           then append_config_file (shown e) r1 else r1).
  assert (Hr2 : r2 =
  mkResult (file_types r) (languages r) (structure r)
    (main_files r ++
       if bool_decide (filename rp e ∈ main_names) then [shown e] else [])%list
    (config_files r ++
       if bool_decide (filename rp e ∈ config_names) then [shown e] else [])%list
    (dependencies r) (project_type r)).
  { subst r1 r2. destruct r. repeat case_bool_decide; simpl;
    by rewrite ?app_nil_r. }
  clearbody r2. clear r1. subst r2.
  generalize (extension rp e). intros ext.
  match goal with
| |- (if _ then match _ with Some _ => fold_left _ _ ?c | None => _ end else _) = _ =>
    set (r3 := c)
  end.
  assert (Hr3 : r3 =
  mkResult (file_types r)
    (match language_of ext with
     | Some l => {[l]} ∪ languages r
     | None => languages r
     end)
    (structure r)
    (main_files r ++
       if bool_decide (filename rp e ∈ main_names) then [shown e] else [])%list
    (config_files r ++
       if bool_decide (filename rp e ∈ config_names) then [shown e] else [])%list
    (dependencies r)
    (if bool_decide (project_type r = "" ∨ project_type r = "unknown")
     then default (project_type r) (primary_language ext)
     else project_type r)).
  { subst r3.
  destruct (String.eqb_spec ext ".py") as [->|N1]; [by rewrite Hpt|].
  case_bool_decide as N2; [rewrite Hpt; member_cases N2; reflexivity|].
  case_bool_decide as N3; [member_cases N3; plain|].
  destruct (String.eqb_spec ext ".css") as [->|N4]; [plain|].
  destruct (String.eqb_spec ext ".json") as [->|N5]; [plain|].
  destruct (String.eqb_spec ext ".md") as [->|N6]; [plain|].
  case_bool_decide as N7; [member_cases N7; plain|].
  destruct (String.eqb_spec ext ".txt") as [->|N8]; [plain|].
  split_notin N2. split_notin N3. split_notin N7.
  rewrite language_of_None by (simpl; prove_notin).
  unfold primary_language.
  rewrite (bool_decide_eq_false_2 (ext ∈ _)) by prove_notin.
  by destruct (bool_decide (_ ∨ _)). }
  clearbody r3. subst r3.
  destruct (String.eqb_spec (filename rp e) "requirements.txt") as [Hreq|Hreq].
  - rewrite decide_True by done. destruct (read_text e) as [text|].
  + by rewrite scan_lines_spec.
  + simpl. by rewrite app_nil_r.
  - rewrite decide_False by done. simpl. by rewrite app_nil_r.
Qed.

(** * The walk *)

(** The loop over a walk in two parts. *)
Lemma for_each_app {A S : Type} (body : S → A → outcome S) (l1 l2 : list A)
    (s : S) :
  for_each body (l1 ++ l2)%list s = s' ← for_each body l1 s; for_each body l2 s'.
Proof.
  revert s. induction l1 as [|x l1 IH]; intros s; simpl; [done|].
  destruct (body s x); simpl; [apply IH|done].
Qed.

Section WalkFacts.

Variable repo_path : PurePath.t.

Lemma classify_spec (r : State) (e : Entry) :
  classify repo_path r e =
  mkResult
    (if decide (extension repo_path e = "") then file_types r
     else {[extension repo_path e]} ∪ file_types r)
    (match language_of (extension repo_path e) with
     | Some l => {[l]} ∪ languages r
     | None => languages r
     end)
    (structure r ++ [shown e])%list
    (main_files r ++
       if bool_decide (filename repo_path e ∈ main_names) then [shown e] else [])%list
    (config_files r ++
       if bool_decide (filename repo_path e ∈ config_names) then [shown e] else [])%list
    (dependencies r ++ declared_dependencies repo_path e)%list
    (if bool_decide (project_type r = "" ∨ project_type r = "unknown")
     then default (project_type r) (primary_language (extension repo_path e))
     else project_type r).
Proof.
  unfold classify. rewrite _analyze_file_spec.
  destruct (String.eqb_spec (extension repo_path e) "") as [Hext|Hext].
  - by rewrite decide_True.
  - by rewrite decide_False.
Qed.

Lemma visit_retained (r : State) (e : Entry) :
  Retained repo_path e → visit repo_path r e = Return (classify repo_path r e).
Proof. intros [Hf Hi]. unfold visit. by rewrite Hf, Hi. Qed.

Lemma visit_not_file (r : State) (e : Entry) :
  is_file e = Some false → visit repo_path r e = Return r.
Proof. intros Hf. unfold visit. by rewrite Hf. Qed.

Lemma visit_ignored (r : State) (e : Entry) :
  is_file e ≠ None →
  _should_ignore_file repo_path e = Return true → visit repo_path r e = Return r.
Proof. intros Hf Hi. unfold visit. rewrite Hi. by destruct (is_file e) as [[]|]. Qed.

Lemma visit_stops (r : State) (e : Entry) :
  Stops repo_path e → visit repo_path r e = Raise OSError.
Proof.
  intros [Hf|(Hf & Hparts & Hstat)]; unfold visit; rewrite Hf; [done|].
  by rewrite (proj2 (should_ignore_raise repo_path e OSError)).
Qed.

(** Every entry is retained, or skipped without a trace, or stops the
    walk with the exception of [is_file()] or of [stat()]. *)
Lemma visit_cases (e : Entry) :
  (Retained repo_path e ∧ ¬ Stops repo_path e)
  ∨ (¬ Retained repo_path e ∧ ¬ Stops repo_path e
     ∧ ∀ r, visit repo_path r e = Return r)
  ∨ (¬ Retained repo_path e ∧ Stops repo_path e).
Proof.
  unfold Retained, Stops, StatFails.
  destruct (is_file e) as [[]|] eqn:Hf.
  3:{ right; right. split; [by intros [? _]|by left]. }
  2:{ right; left. split_and!; [by intros [? _]|by intros [?|[? _]]|].
      intros r. by apply visit_not_file. }
  destruct (_should_ignore_file repo_path e) as [[]|x] eqn:Hi.
  - right; left.
    split_and!; [by intros [_ ?]| |intros r; apply visit_ignored; congruence].
    intros [?|(_ & Hp & Hs)]; [done|].
    by rewrite (proj2 (should_ignore_raise repo_path e OSError)) in Hi.
  - left. split; [done|]. intros [?|(_ & Hp & Hs)]; [done|].
    by rewrite (proj2 (should_ignore_raise repo_path e OSError)) in Hi.
  - right; right. apply should_ignore_raise in Hi as (-> & Hp & Hs).
    split; [by intros [_ ?]|by right].
Qed.

(** The walk returns when the loop body raises at no entry, and then it
    has classified the retained files, in the order of the walk. *)
Lemma for_each_visit_returns (l : list Entry) (r : State) :
  Forall (λ e, ¬ Stops repo_path e) l →
  for_each (visit repo_path) l r
  = Return (fold_left (classify repo_path) (filter (Retained repo_path) l) r).
Proof.
  revert r. induction l as [|e l IH]; intros r Hl; [done|].
  apply Forall_cons in Hl as [He Hl]. simpl.
  destruct (visit_cases e) as [[Hr _]|[(Hr & _ & Hv)|[_ Hs]]]; [| |done].
  - rewrite visit_retained by done. rewrite filter_cons_True by done.
    simpl. by apply IH.
  - rewrite Hv, filter_cons_False by done. simpl. by apply IH.
Qed.

(** The walk raises as soon as the loop body raises at one entry. *)
Lemma for_each_visit_raises (l : list Entry) (r : State) :
  Exists (Stops repo_path) l →
  for_each (visit repo_path) l r = Raise OSError.
Proof.
  revert r. induction l as [|e l IH]; intros r Hl; [by apply Exists_nil in Hl|].
  simpl. destruct (visit_cases e) as [[Hr Hs]|[(Hr & Hs & Hv)|[_ Hs]]].
  - rewrite visit_retained by done. simpl.
    apply Exists_cons in Hl as [?|Hl]; [done|by apply IH].
  - rewrite Hv. simpl. apply Exists_cons in Hl as [?|Hl]; [done|by apply IH].
  - by rewrite visit_stops.
Qed.

Lemma for_each_visit_cases (l : list Entry) :
  Forall (λ e, ¬ Stops repo_path e) l ∨ Exists (Stops repo_path) l.
Proof.
  induction l as [|e l [IH|IH]].
  - left. constructor.
  - destruct (visit_cases e) as [[_ Hs]|[(_ & Hs & _)|[_ Hs]]].
    + left. by constructor.
    + left. by constructor.
    + right. by constructor.
  - right. by constructor.
Qed.

Lemma for_each_visit_inv (l : list Entry) (r r' : State) :
  for_each (visit repo_path) l r = Return r' →
  Forall (λ e, ¬ Stops repo_path e) l
  ∧ r' = fold_left (classify repo_path) (filter (Retained repo_path) l) r.
Proof.
  intros H. destruct (for_each_visit_cases l) as [Hl|Hl].
  - rewrite for_each_visit_returns in H by done. by injection H as <-.
  - by rewrite for_each_visit_raises in H.
Qed.

End WalkFacts.

(** * The result of classifying a sequence of files *)

Section FoldFacts.

Variable repo_path : PurePath.t.

Lemma fold_structure (es : list Entry) (r : State) :
  structure (fold_left (classify repo_path) es r)
  = (structure r ++ (shown <$> es))%list.
Proof.
  revert r. induction es as [|e es IH]; intros r; simpl.
  - by rewrite app_nil_r.
  - rewrite IH, classify_spec. simpl. by rewrite <- app_assoc.
Qed.

Lemma fold_main_files (es : list Entry) (r : State) :
  main_files (fold_left (classify repo_path) es r)
  = (main_files r
     ++ (shown <$> filter (λ e, filename repo_path e ∈ main_names) es))%list.
Proof.
  revert r. induction es as [|e es IH]; intros r; simpl.
  - by rewrite app_nil_r.
  - rewrite IH, classify_spec. cbn [main_files]. rewrite filter_cons.
    case_bool_decide.
    + rewrite decide_True by done. by rewrite <- app_assoc.
    + rewrite decide_False by done. by rewrite app_nil_r.
Qed.

Lemma fold_config_files (es : list Entry) (r : State) :
  config_files (fold_left (classify repo_path) es r)
  = (config_files r
     ++ (shown <$> filter (λ e, filename repo_path e ∈ config_names) es))%list.
Proof.
  revert r. induction es as [|e es IH]; intros r; simpl.
  - by rewrite app_nil_r.
  - rewrite IH, classify_spec. cbn [config_files]. rewrite filter_cons.
    case_bool_decide.
    + rewrite decide_True by done. by rewrite <- app_assoc.
    + rewrite decide_False by done. by rewrite app_nil_r.
Qed.

Lemma fold_dependencies (es : list Entry) (r : State) :
  dependencies (fold_left (classify repo_path) es r)
  = (dependencies r ++ (es ≫= declared_dependencies repo_path))%list.
Proof.
  revert r. induction es as [|e es IH]; intros r; simpl.
  - by rewrite app_nil_r.
  - rewrite IH, classify_spec. cbn [dependencies]. by rewrite <- app_assoc.
Qed.

Lemma fold_file_types (es : list Entry) (r : State) (x : string) :
  x ∈ file_types (fold_left (classify repo_path) es r)
  ↔ x ∈ file_types r ∨ (x ≠ "" ∧ ∃ e, e ∈ es ∧ extension repo_path e = x).
Proof.
  revert r. induction es as [|e es IH]; intros r; simpl.
  - split; [by left|]. intros [?|(_ & e & He & _)]; [done|].
    by apply elem_of_nil in He.
  - rewrite IH, classify_spec. cbn [file_types]. split.
    + intros [Hx|(Hx & e' & He' & Hext)].
      * destruct (decide (extension repo_path e = "")) as [Hempty|Hempty];
          [by left|].
        apply elem_of_union in Hx as [Hx|Hx]; [|by left].
        apply elem_of_singleton in Hx. subst x. right. split; [done|].
        exists e. split; [left|done].
      * right. split; [done|]. exists e'. split; [by right|done].
    + intros [Hx|(Hx & e' & He' & Hext)].
      * left. destruct (decide _); [done|]. apply elem_of_union. by right.
      * apply elem_of_cons in He' as [->|He'].
        -- left. rewrite decide_False by congruence.
           apply elem_of_union. left. by apply elem_of_singleton.
        -- right. split; [done|]. by exists e'.
Qed.

Lemma fold_languages (es : list Entry) (r : State) (l : string) :
  l ∈ languages (fold_left (classify repo_path) es r)
  ↔ l ∈ languages r
    ∨ ∃ e, e ∈ es ∧ language_of (extension repo_path e) = Some l.
Proof.
  revert r. induction es as [|e es IH]; intros r; simpl.
  - split; [by left|]. intros [?|(e & He & _)]; [done|].
    by apply elem_of_nil in He.
  - rewrite IH, classify_spec. cbn [languages]. split.
    + intros [Hl|(e' & He' & Hlang)].
      * destruct (language_of (extension repo_path e)) as [l'|] eqn:E;
          [|by left].
        apply elem_of_union in Hl as [Hl|Hl]; [|by left].
        apply elem_of_singleton in Hl. subst l'. right.
        exists e. split; [left|done].
      * right. exists e'. split; [by right|done].
    + intros [Hl|(e' & He' & Hlang)].
      * left. destruct (language_of _); [|done]. apply elem_of_union. by right.
      * apply elem_of_cons in He' as [->|He'].
        -- left. rewrite Hlang. apply elem_of_union. left.
           by apply elem_of_singleton.
        -- right. by exists e'.
Qed.

(** A primary language is a concrete project type. *)
Lemma primary_language_concrete (ext lang : string) :
  primary_language ext = Some lang → lang = "Python" ∨ lang = "JavaScript".
Proof.
  unfold primary_language. case_bool_decide as H; [|done].
  member_cases H; vm_compute; intros ?; simplify_eq; auto.
Qed.

Lemma fold_project_type (es : list Entry) (r : State) :
  project_type (fold_left (classify repo_path) es r)
  = if bool_decide (project_type r = "" ∨ project_type r = "unknown")
    then default (project_type r) (first_primary_language repo_path es)
    else project_type r.
Proof.
  unfold first_primary_language.
  revert r. induction es as [|e es IH]; intros r; simpl.
  - by destruct (bool_decide _).
  - rewrite IH, classify_spec. cbn [project_type omap list_omap].
    destruct (decide (project_type r = "" ∨ project_type r = "unknown"))
      as [U|U].
    + rewrite !(bool_decide_eq_true_2 _ U).
      destruct (primary_language (extension repo_path e)) as [lang|] eqn:E;
        simpl.
      * rewrite bool_decide_eq_false_2; [done|].
        apply primary_language_concrete in E as [->| ->]; intros [?|?]; done.
      * by rewrite (bool_decide_eq_true_2 _ U).
    + by rewrite !(bool_decide_eq_false_2 _ U).
Qed.

(** Once the project type is concrete, no file changes it. *)
Lemma _analyze_file_keeps_project_type (e : Entry) (r : State) :
  project_type r ≠ "" → project_type r ≠ "unknown" →
  project_type (_analyze_file repo_path e r) = project_type r.
Proof.
  intros H1 H2. rewrite _analyze_file_spec. cbn [project_type].
  rewrite bool_decide_eq_false_2; [done|]. by intros [?|?].
Qed.

End FoldFacts.

(** * The scan as a whole *)

Section ScanFacts.

Variable repo_path : PurePath.t.
Variable root : RootKind.

(** The scan returns exactly when [exists()] answers that the root is
    there, the enumeration reaches its end and the loop body raises at no
    entry; and it returns the classification of the retained files. *)
Lemma scan_returns_iff (p : Result (list string)) :
  scan repo_path root = Return p
  ↔ path_exists root = Return true
    ∧ rglob_end root = Return ()
    ∧ Forall (λ e, ¬ Stops repo_path e) (rglob root)
    ∧ p = to_list (fold_left (classify repo_path) (retained_files repo_path root) initial).
Proof.
  unfold scan, __init__, analyze, retained_files.
  destruct root as [| | |walk|walk] eqn:Hroot; simpl.
  - split; [done|]. by intros [? _].
  - split; [done|]. by intros [? _].
  - split.
    + intros [= <-]. split_and!; [done|done|constructor|done].
    + by intros (_ & _ & _ & ->).
  - destruct (for_each_visit_cases repo_path walk) as [Hl|Hl].
    + rewrite for_each_visit_returns by done. simpl. split.
      * intros [= <-]. by split_and!.
      * by intros (_ & _ & _ & ->).
    + rewrite for_each_visit_raises by done. simpl. split; [done|].
      intros (_ & _ & Hall & _). exfalso.
      apply Exists_exists in Hl as (e & He & Hs).
      rewrite Forall_forall in Hall. by apply (Hall e).
  - split; [|by intros (_ & ? & _)].
    by destruct (for_each (visit repo_path) walk initial).
Qed.

(** The only other outcomes are the two exceptions. *)
Lemma scan_raises_ValueError_iff :
  scan repo_path root = Raise ValueError ↔ path_exists root = Return false.
Proof.
  unfold scan, __init__, analyze.
  destruct root as [| | |walk|walk]; simpl; [done|done|done| |].
  - destruct (for_each_visit_cases repo_path walk) as [Hl|Hl].
    + by rewrite for_each_visit_returns.
    + by rewrite for_each_visit_raises.
  - destruct (for_each_visit_cases repo_path walk) as [Hl|Hl].
    + by rewrite for_each_visit_returns.
    + by rewrite for_each_visit_raises.
Qed.

Lemma scan_raises_OSError_iff :
  scan repo_path root = Raise OSError
  ↔ rglob_end root = Raise OSError ∨ Exists (Stops repo_path) (rglob root).
Proof.
  unfold scan, __init__, analyze.
  destruct root as [| | |walk|walk]; simpl.
  - split; [done|]. intros [?|H]; [done|]. by apply Exists_nil in H.
  - split; [by left|done].
  - split; [done|]. intros [?|H]; [done|]. by apply Exists_nil in H.
  - destruct (for_each_visit_cases repo_path walk) as [Hl|Hl].
    + rewrite for_each_visit_returns by done. simpl. split; [done|].
      intros [?|H]; [done|]. exfalso. apply Exists_exists in H as (e & He & Hs).
      rewrite Forall_forall in Hl. by apply (Hl e).
    + rewrite for_each_visit_raises by done. split; [by right|done].
  - split; [by left|intros _].
    destruct (for_each_visit_cases repo_path walk) as [Hl|Hl].
    + by rewrite for_each_visit_returns.
    + by rewrite for_each_visit_raises.
Qed.

End ScanFacts.

(** * The claims *)

(** Two entries of a walk that show the same relative path are the same
    entry, when the walk shows no path twice. *)
Lemma shown_inj_on_walk (walk : list Entry) (e e' : Entry) :
  NoDup (shown <$> walk) → e ∈ walk → e' ∈ walk → shown e = shown e' → e = e'.
Proof.
  induction walk as [|a walk IH]; intros Hnd He He' Heq.
  - by apply elem_of_nil in He.
  - rewrite fmap_cons in Hnd. apply NoDup_cons in Hnd as [Ha Hnd].
    apply elem_of_cons in He as [->|He], He' as [->|He']; [done| | |by apply IH].
    + exfalso. apply Ha. rewrite Heq. apply list_elem_of_fmap. by exists e'.
    + exfalso. apply Ha. rewrite <- Heq. apply list_elem_of_fmap. by exists e.
Qed.

Lemma structure_of_scan (repo_path : PurePath.t) (root : RootKind)
    (p : Result (list string)) :
  scan repo_path root = Return p →
  structure p = shown <$> retained_files repo_path root.
Proof.
  intros (_ & _ & _ & ->)%scan_returns_iff. cbn [to_list structure].
  by rewrite fold_structure.
Qed.

Lemma file_types_of_scan (repo_path : PurePath.t) (root : RootKind)
    (p : Result (list string)) (x : string) :
  scan repo_path root = Return p →
  x ∈ file_types p
  ↔ x ≠ "" ∧ ∃ e, e ∈ retained_files repo_path root ∧ extension repo_path e = x.
Proof.
  intros (_ & _ & _ & ->)%scan_returns_iff. cbn [to_list file_types].
  rewrite elem_of_elements, fold_file_types. cbn [initial file_types].
  split; [intros [H|H]; [by apply not_elem_of_empty in H|done]|by right].
Qed.

Lemma languages_of_scan (repo_path : PurePath.t) (root : RootKind)
    (p : Result (list string)) (l : string) :
  scan repo_path root = Return p →
  l ∈ languages p
  ↔ ∃ e, e ∈ retained_files repo_path root
         ∧ language_of (extension repo_path e) = Some l.
Proof.
  intros (_ & _ & _ & ->)%scan_returns_iff. cbn [to_list languages].
  rewrite elem_of_elements, fold_languages. cbn [initial languages].
  split; [intros [H|H]; [by apply not_elem_of_empty in H|done]|by right].
Qed.

Lemma elem_of_retained_files (repo_path : PurePath.t) (root : RootKind) (e : Entry) :
  e ∈ retained_files repo_path root ↔ Retained repo_path e ∧ e ∈ rglob root.
Proof. apply list_elem_of_filter. Qed.

(** An entry at which the loop body does nothing can be left out of the
    walk. *)
Lemma scan_without_skipped (repo_path : PurePath.t) (e : Entry)
    (before after : list Entry) :
  (∀ r, visit repo_path r e = Return r) →
  scan repo_path (Directory (before ++ e :: after)%list)
  = scan repo_path (Directory (before ++ after)%list).
Proof.
  intros Hvisit. unfold scan, analyze. cbn [__init__ path_exists rglob rglob_end].
  simpl. f_equal. rewrite !for_each_app.
  destruct (for_each (visit repo_path) before initial) as [r|x]; simpl; [|done].
  by rewrite Hvisit.
Qed.

(** A file above 1 MiB is answered "ignore", whatever it holds. *)
Lemma should_ignore_oversized (repo_path : PurePath.t) (e : Entry) (n : Z) :
  st_size e = Some n → 1048576 < n →
  _should_ignore_file repo_path e = Return true.
Proof.
  intros Hn Hbig. unfold _should_ignore_file, stat_size. rewrite Hn.
  destruct (existsb _ _); [done|]. simpl.
  by destruct (Z.ltb_spec (1024 * 1024) n); [|lia].
Qed.

(** C1: what the code does, and where it departs from the claim. For a
    scan that returns, over a walk that shows no path twice, a regular
    file's relative path is in [structure] exactly when the file passes
    the ignore policy (no component of its path under the root is an
    ignored name, at most 1 MiB, can be opened, no null byte in the first
    1024 bytes) and, besides, no component of the root path itself is an
    ignored name. So the claim holds for every root path that has no such
    component, and fails for the others: there no file is in
    [structure]. A file above 1 MiB is never in [structure] and adds
    nothing to the result, its extension included: the scan is the scan
    of the walk without it. *)
Theorem structure_iff_policy_and_clear_root (repo_path : PurePath.t)
    (root : RootKind) (p : Result (list string)) :
  NoDup (shown <$> rglob root) →
  scan repo_path root = Return p →
  ∀ e, e ∈ rglob root → is_file e = Some true →
    (shown e ∈ structure p ↔ RootClear repo_path ∧ PassesPolicy e)
    ∧ (RootClear repo_path → (shown e ∈ structure p ↔ PassesPolicy e))
    ∧ (∀ n, st_size e = Some n → 1048576 < n →
         (shown e ∉ structure p)
         ∧ ∀ before after, rglob root = (before ++ e :: after)%list →
             scan repo_path (Directory (before ++ after)%list) = Return p).
Proof.
  intros Hnd Hscan e He Hfile.
  assert (Hiff : shown e ∈ structure p ↔ RootClear repo_path ∧ PassesPolicy e).
  { rewrite (structure_of_scan _ _ _ Hscan), list_elem_of_fmap. split.
    - intros (e' & Heq & [Hr He']%elem_of_retained_files).
      rewrite (shown_inj_on_walk _ e e' Hnd He He' Heq).
      by apply Retained_spec in Hr as [_ ?].
    - intros Hp. exists e. split; [done|].
      apply elem_of_retained_files. split; [|done]. by apply Retained_spec. }
  split_and!; [done|rewrite Hiff; tauto|]. intros n Hn Hbig. split.
  - rewrite Hiff. intros (_ & _ & (m & Hm & Hle) & _). simplify_eq. lia.
  - intros before after Hwalk. rewrite <- Hscan.
    destruct root as [| | |walk|walk]; cbn [rglob] in Hwalk;
      try by destruct before.
    + subst walk. symmetry. apply scan_without_skipped. intros r.
      apply visit_ignored; [congruence|by apply (should_ignore_oversized _ _ n)].
    + by apply scan_returns_iff in Hscan as (_ & ? & _).
Qed.

(** The input on which the code departs from C1: a repository kept at
    home/venv/repo. Its file src/small.py passes the policy, and is not in
    [structure]. *)
Lemma structure_iff_policy_and_clear_root_witness :
  ∃ p, scan ["home"; "venv"; "repo"] (Directory [sample_small]) = Return p
       ∧ PassesPolicy sample_small
       ∧ (shown sample_small ∉ structure p).
Proof.
  eexists. split; [vm_compute; reflexivity|]. split.
  - split_and!.
    + by apply no_ignored_part_spec.
    + exists 10. split; [reflexivity|lia].
    + exists [Byte.x61]. split; [reflexivity|]. by apply no_null_byte_spec.
  - intros Hin.
    apply (proj1 (structure_iff_policy_and_clear_root ["home"; "venv"; "repo"]
                    (Directory [sample_small]) _
                    (NoDup_singleton _) eq_refl sample_small
                    (list_elem_of_here _ _) eq_refl))
      in Hin as [Hclear _].
    apply (Hclear "venv"); [right; left|].
    apply (bool_decide_unpack _). vm_compute. exact I.
Defined.

(** The same file in the same repository kept at home/repo is in
    [structure]. *)
Lemma structure_under_clear_root :
  ∃ p, scan ["home"; "repo"] (Directory [sample_big; sample_small]) = Return p
       ∧ structure p = ["src/small.py"].
Proof. eexists. split; vm_compute; reflexivity. Qed.

(** C2, as the code has it. The scan fails with [ValueError] exactly when
    [exists()] answers that nothing is at the root path; the constructor
    raises it, before [analyze] runs. When [exists()] itself raises, that
    exception is what the scan ends with. A root that exists and is not a
    directory is accepted, and its scan returns the empty result. *)
Theorem scan_fails_iff_exists_answers_false (repo_path : PurePath.t)
    (root : RootKind) :
  (scan repo_path root = Raise ValueError ↔ path_exists root = Return false)
  ∧ (__init__ root = Raise ValueError ↔ path_exists root = Return false)
  ∧ (path_exists root = Return false ↔ root = Missing)
  ∧ (∀ x, path_exists root = Raise x →
       __init__ root = Raise x ∧ scan repo_path root = Raise x)
  ∧ path_exists NotDirectory = Return true
  ∧ __init__ NotDirectory = Return ()
  ∧ scan repo_path NotDirectory = Return (mkResult [] [] [] [] [] [] "unknown").
Proof.
  split_and!.
  - apply scan_raises_ValueError_iff.
  - unfold __init__. by destruct root.
  - by destruct root.
  - intros x Hx. unfold scan, __init__. by rewrite Hx.
  - reflexivity.
  - reflexivity.
  - reflexivity.
Qed.

(** C2 as stated fails: a root that is a regular file is not rejected. *)
Lemma root_not_directory_counterexample :
  ¬ (∀ (repo_path : PurePath.t) (root : RootKind),
       scan repo_path root = Raise ValueError
       ↔ root = Missing ∨ root = NotDirectory).
Proof.
  intros H. destruct (H ["home"; "notes.txt"] NotDirectory) as [_ Hraise].
  discriminate (Hraise (or_intror eq_refl)).
Qed.

(** C3: where the code departs from the claim. A regular file whose
    [stat()] raises (it vanished after [is_file()], say) ends the scan with
    that exception, although the next file could be classified. *)
Theorem scan_raises_when_stat_fails :
  scan ["home"; "repo"]
       (Directory [sample_vanished; sample_small])
  = Raise OSError.
Proof. reflexivity. Qed.

(** The same happens when [is_file()] raises, which comes before the
    ignore test: here for an entry under node_modules that may not be
    looked at. *)
Lemma scan_raises_when_is_file_fails :
  scan ["home"; "repo"] (Directory [sample_locked; sample_small])
  = Raise OSError.
Proof. reflexivity. Qed.

(** What does hold of C3: a file that cannot be opened or read is skipped,
    and the walk goes on. *)
Lemma unreadable_file_is_skipped (repo_path : PurePath.t) (e : Entry) (n : Z) :
  is_file e ≠ None → st_size e = Some n → content e = None →
  ∀ r, visit repo_path r e = Return r.
Proof.
  intros Hf Hn Hc r. apply visit_ignored; [done|].
  unfold _should_ignore_file, stat_size. rewrite Hn, Hc. simpl.
  destruct (existsb _ _); [done|]. by destruct (_ <? _).
Qed.

Lemma first_primary_language_None (repo_path : PurePath.t) (es : list Entry) :
  Forall (λ e, primary_language (extension repo_path e) = None) es →
  first_primary_language repo_path es = None.
Proof.
  unfold first_primary_language. induction 1 as [|e es He _ IH]; [done|].
  simpl. by rewrite He.
Qed.

Lemma first_primary_language_Some (repo_path : PurePath.t)
    (before after : list Entry) (e : Entry) (lang : string) :
  Forall (λ e', primary_language (extension repo_path e') = None) before →
  primary_language (extension repo_path e) = Some lang →
  first_primary_language repo_path (before ++ e :: after) = Some lang.
Proof.
  unfold first_primary_language. intros Hb He.
  induction Hb as [|e' es He' _ IH]; simpl.
  - by rewrite He.
  - by rewrite He'.
Qed.

Lemma project_type_of_scan (repo_path : PurePath.t) (root : RootKind)
    (p : Result (list string)) :
  scan repo_path root = Return p →
  project_type p
  = default "unknown"
      (first_primary_language repo_path (retained_files repo_path root)).
Proof.
  intros (_ & _ & _ & ->)%scan_returns_iff. cbn [to_list project_type].
  by rewrite fold_project_type.
Qed.

(** C4. The project type starts as "unknown"; a file whose lower-cased
    extension is .py sets it to "Python" and one of .js, .jsx, .ts, .tsx
    to "JavaScript", but only while it is still unset; once it is concrete
    no file changes it. So the scan reports the language of the first
    retained file, in the order of the walk, that has a primary language,
    and "unknown" when the walk has no such file. *)
Theorem project_type_first_primary (repo_path : PurePath.t) (root : RootKind)
    (p : Result (list string)) :
  scan repo_path root = Return p →
  (primary_language ".py" = Some "Python"
   ∧ (∀ ext, ext ∈ [".js"; ".jsx"; ".ts"; ".tsx"] →
        primary_language ext = Some "JavaScript")
   ∧ (∀ ext, ext ∉ [".py"; ".js"; ".jsx"; ".ts"; ".tsx"] →
        primary_language ext = None))
  ∧ (∀ (e : Entry) (r : State),
       project_type r ≠ "" → project_type r ≠ "unknown" →
       project_type (_analyze_file repo_path e r) = project_type r)
  ∧ (∀ (before after : list Entry) (e : Entry) (lang : string),
       retained_files repo_path root = (before ++ e :: after)%list →
       Forall (λ e', primary_language (extension repo_path e') = None) before →
       primary_language (extension repo_path e) = Some lang →
       project_type p = lang)
  ∧ (Forall (λ e, is_file e = Some true →
                  primary_language (extension repo_path e) = None)
            (rglob root) →
     project_type p = "unknown")
  ∧ (rglob root = [] → project_type p = "unknown").
Proof.
  intros Hscan. pose proof (project_type_of_scan _ _ _ Hscan) as Hpt.
  assert (Hnone :
    Forall (λ e, is_file e = Some true →
                 primary_language (extension repo_path e) = None)
           (rglob root) →
    project_type p = "unknown").
  { intros Hall. rewrite Hpt, first_primary_language_None; [done|].
    apply Forall_forall. intros e [[Hf _] He]%elem_of_retained_files.
    rewrite Forall_forall in Hall. by apply Hall. }
  split_and!.
  - reflexivity.
  - intros ext H. by member_cases H.
  - intros ext H. unfold primary_language. by rewrite bool_decide_eq_false_2.
  - apply _analyze_file_keeps_project_type.
  - intros before after e lang Hsplit Hb He.
    rewrite Hpt, Hsplit. by rewrite (first_primary_language_Some _ _ _ _ lang).
  - done.
  - intros Hempty. apply Hnone. rewrite Hempty. constructor.
Qed.

Lemma project_type_first_primary_witness :
  ∃ p, scan ["home"; "repo"]
         (Directory [sample_readme; sample_vendored; sample_script; sample_small])
       = Return p
       ∧ project_type p = "JavaScript".
Proof.
  eexists. split; [vm_compute; reflexivity|].
  refine (proj1 (proj2 (proj2 (project_type_first_primary ["home"; "repo"]
    (Directory [sample_readme; sample_vendored; sample_script; sample_small])
    _ _))) [sample_readme] [sample_small] sample_script "JavaScript" _ _ _).
  - vm_compute. reflexivity.
  - vm_compute. reflexivity.
  - repeat constructor.
  - vm_compute. reflexivity.
Defined.

Lemma dependencies_of_scan (repo_path : PurePath.t) (root : RootKind)
    (p : Result (list string)) :
  scan repo_path root = Return p →
  dependencies p
  = retained_files repo_path root ≫= declared_dependencies repo_path.
Proof.
  intros (_ & _ & _ & ->)%scan_returns_iff. cbn [to_list dependencies].
  by rewrite fold_dependencies.
Qed.

Lemma main_files_of_scan (repo_path : PurePath.t) (root : RootKind)
    (p : Result (list string)) :
  scan repo_path root = Return p →
  main_files p
  = shown <$> filter (λ e, filename repo_path e ∈ main_names)
                     (retained_files repo_path root).
Proof.
  intros (_ & _ & _ & ->)%scan_returns_iff. cbn [to_list main_files].
  by rewrite fold_main_files.
Qed.

Lemma config_files_of_scan (repo_path : PurePath.t) (root : RootKind)
    (p : Result (list string)) :
  scan repo_path root = Return p →
  config_files p
  = shown <$> filter (λ e, filename repo_path e ∈ config_names)
                     (retained_files repo_path root).
Proof.
  intros (_ & _ & _ & ->)%scan_returns_iff. cbn [to_list config_files].
  by rewrite fold_config_files.
Qed.

(** C5. The dependencies of a scan are, file by file in the order of the
    walk, what each retained requirements.txt declares: the lines of its
    text, trimmed, that are not empty, do not start with '#' and hold
    '==', in the order of the file. When the text cannot be read the file
    adds nothing; the loop body still returns, and the file is in
    [structure] and [config_files]. *)
Theorem requirements_dependencies (repo_path : PurePath.t) (root : RootKind)
    (p : Result (list string)) :
  scan repo_path root = Return p →
  dependencies p
  = retained_files repo_path root ≫= declared_dependencies repo_path
  ∧ ∀ e, e ∈ rglob root → Retained repo_path e →
      PyStr.lower (PurePath.name (parts repo_path e)) = "requirements.txt" →
      shown e ∈ structure p
      ∧ shown e ∈ config_files p
      ∧ ∀ r : State, ∃ r' : State,
          visit repo_path r e = Return r'
          ∧ dependencies r'
            = (dependencies r ++
               match read_text e with
               | Some text =>
                   filter DependencyLine
                     (PyStr.strip <$> PyStr.split "010" text)
               | None => []
               end)%list.
Proof.
  intros Hscan. split; [by apply dependencies_of_scan|].
  intros e He Hr Hname.
  assert (Hin : e ∈ retained_files repo_path root)
    by by apply elem_of_retained_files.
  split_and!.
  - rewrite (structure_of_scan _ _ _ Hscan). apply list_elem_of_fmap. by exists e.
  - rewrite (config_files_of_scan _ _ _ Hscan). apply list_elem_of_fmap.
    exists e. split; [done|]. apply list_elem_of_filter. split; [|done].
    unfold filename. rewrite Hname. unfold config_names. left.
  - intros r. exists (classify repo_path r e).
    split; [by apply visit_retained|].
    rewrite classify_spec. cbn [dependencies].
    unfold declared_dependencies, filename. by rewrite decide_True.
Qed.

Lemma requirements_dependencies_witness :
  ∃ p, scan ["home"; "repo"] (Directory [sample_small; sample_requirements])
       = Return p
       ∧ dependencies p = ["requests==2.28.0"; "flask==2.3.0"].
Proof.
  eexists. split; [vm_compute; reflexivity|].
  refine (eq_trans (proj1 (requirements_dependencies ["home"; "repo"]
    (Directory [sample_small; sample_requirements]) _ _)) _).
  - vm_compute. reflexivity.
  - vm_compute. reflexivity.
Defined.



(** C7. Over the retained files in the order of the walk, [main_files]
    lists those whose lower-cased name is an entry-point name and
    [config_files] those whose lower-cased name is a configuration name;
    the loop body appends a file's path to each list exactly in that case. *)
Theorem main_and_config_files (repo_path : PurePath.t) (root : RootKind)
    (p : Result (list string)) :
  scan repo_path root = Return p →
  main_files p
  = shown <$> filter
      (λ e, PyStr.lower (PurePath.name (parts repo_path e))
            ∈ ["main.py"; "app.py"; "index.py"; "run.py"])
      (retained_files repo_path root)
  ∧ config_files p
    = shown <$> filter
        (λ e, PyStr.lower (PurePath.name (parts repo_path e))
              ∈ ["requirements.txt"; "package.json"; "setup.py";
                 "pyproject.toml"; "dockerfile"; "docker-compose.yml";
                 ".env.example"; "config.json"])
        (retained_files repo_path root)
  ∧ ∀ (e : Entry) (r : State), Retained repo_path e →
      ∃ r' : State,
        visit repo_path r e = Return r'
        ∧ main_files r'
          = (main_files r ++
             if bool_decide (PyStr.lower (PurePath.name (parts repo_path e))
                             ∈ ["main.py"; "app.py"; "index.py"; "run.py"])
             then [shown e] else [])%list
        ∧ config_files r'
          = (config_files r ++
             if bool_decide (PyStr.lower (PurePath.name (parts repo_path e))
                             ∈ ["requirements.txt"; "package.json"; "setup.py";
                                "pyproject.toml"; "dockerfile";
                                "docker-compose.yml"; ".env.example";
                                "config.json"])
             then [shown e] else [])%list.
Proof.
  intros Hscan. split_and!.
  - apply (main_files_of_scan _ _ _ Hscan).
  - apply (config_files_of_scan _ _ _ Hscan).
  - intros e r Hr. exists (classify repo_path r e).
    split; [by apply visit_retained|]. by rewrite classify_spec.
Qed.

Lemma main_and_config_files_witness :
  ∃ p, scan ["home"; "repo"]
         (Directory [sample_dockerfile; sample_small; sample_entry_point;
                     sample_requirements])
       = Return p
       ∧ main_files p = ["pkg/Main.PY"]
       ∧ config_files p = ["deploy/Dockerfile"; "Requirements.TXT"].
Proof.
  eexists. split; [vm_compute; reflexivity|].
  destruct (main_and_config_files ["home"; "repo"]
              (Directory [sample_dockerfile; sample_small; sample_entry_point;
                          sample_requirements]) _ eq_refl)
    as (Hmain & Hconfig & _).
  split.
  - refine (eq_trans Hmain _). vm_compute. reflexivity.
  - refine (eq_trans Hconfig _). vm_compute. reflexivity.
Defined.

Lemma rfind_lower_bound (c : ascii) (s : string) : -1 ≤ PyStr.rfind c s.
Proof.
  induction s as [|a s IH]; simpl; [lia|].
  destruct (Z.leb_spec 0 (PyStr.rfind c s)); [lia|].
  destruct (Ascii.eqb a c); lia.
Qed.

(** The slice that starts at the index [rfind] gives starts with the
    character looked for. *)
Lemma rfind_drop (c : ascii) (s : string) :
  0 ≤ PyStr.rfind c s →
  ∃ t, PyStr.drop (Z.to_nat (PyStr.rfind c s)) s = String c t.
Proof.
  induction s as [|a s IH]; simpl; [lia|].
  destruct (Z.leb_spec 0 (PyStr.rfind c s)) as [Hr|Hr].
  - intros _. destruct (IH Hr) as [t Ht]. exists t.
    replace (Z.to_nat (PyStr.rfind c s + 1))
      with (S (Z.to_nat (PyStr.rfind c s))) by lia.
    done.
  - destruct (Ascii.eqb_spec a c) as [->|Hne]; [|lia].
    intros _. by exists s.
Qed.

(** A suffix that is not empty starts with its dot. *)
Lemma suffix_leading_dot (p : PurePath.t) :
  PurePath.suffix p ≠ "" → ∃ t, PurePath.suffix p = String "." t.
Proof.
  unfold PurePath.suffix.
  destruct (Z.ltb_spec 0 (PyStr.rfind "." (PurePath.name p))) as [Hi|Hi];
    simpl; [|done].
  destruct (_ <? _); [|done]. intros _. apply rfind_drop. lia.
Qed.

Lemma extension_leading_dot (repo_path : PurePath.t) (e : Entry) :
  extension repo_path e ≠ "" → ∃ t, extension repo_path e = String "." t.
Proof.
  unfold extension. intros Hne.
  destruct (suffix_leading_dot (parts repo_path e)) as [t Ht].
  - intros Hs. apply Hne. by rewrite Hs.
  - rewrite Ht. by exists (PyStr.lower t).
Qed.

(** C8. Every member of [file_types] is the lower-cased extension, not
    empty and with its leading dot, of a file whose path is in
    [structure]; every member of [languages] is the language the table
    gives for the extension of such a file; and every retained file with
    an extension has it in [file_types], whatever the table says. *)
Theorem file_types_and_languages_from_structure (repo_path : PurePath.t)
    (root : RootKind) (p : Result (list string)) :
  scan repo_path root = Return p →
  (∀ x, x ∈ file_types p →
     x ≠ "" ∧ (∃ t, x = String "." t)
     ∧ ∃ e, e ∈ rglob root ∧ Retained repo_path e ∧ shown e ∈ structure p
            ∧ x = PyStr.lower (PurePath.suffix (parts repo_path e)))
  ∧ (∀ l, l ∈ languages p →
       ∃ e, e ∈ rglob root ∧ Retained repo_path e ∧ shown e ∈ structure p
            ∧ language_of (PyStr.lower (PurePath.suffix (parts repo_path e)))
              = Some l)
  ∧ (∀ e, e ∈ rglob root → Retained repo_path e →
       PyStr.lower (PurePath.suffix (parts repo_path e)) ≠ "" →
       shown e ∈ structure p
       ∧ PyStr.lower (PurePath.suffix (parts repo_path e)) ∈ file_types p).
Proof.
  intros Hscan.
  assert (Hshown : ∀ e, e ∈ retained_files repo_path root →
                        shown e ∈ structure p).
  { intros e He. rewrite (structure_of_scan _ _ _ Hscan).
    apply list_elem_of_fmap. by exists e. }
  split_and!.
  - intros x (Hx & e & He & Hext)%(file_types_of_scan _ _ _ _ Hscan).
    split_and!; [done| |].
    + rewrite <- Hext. apply extension_leading_dot. by rewrite Hext.
    + exists e. pose proof He as [Hr Hin]%elem_of_retained_files.
      split_and!; [done|done|by apply Hshown|done].
  - intros l (e & He & Hlang)%(languages_of_scan _ _ _ _ Hscan).
    exists e. pose proof He as [Hr Hin]%elem_of_retained_files.
    split_and!; [done|done|by apply Hshown|done].
  - intros e Hin Hr Hext.
    assert (He : e ∈ retained_files repo_path root)
      by by apply elem_of_retained_files.
    split; [by apply Hshown|].
    apply (file_types_of_scan _ _ _ _ Hscan). split; [done|]. by exists e.
Qed.

Lemma file_types_and_languages_from_structure_witness :
  ∃ p, scan ["home"; "repo"] (Directory [sample_unmapped; sample_readme])
       = Return p
       ∧ ".rst" ∈ file_types p
       ∧ language_of ".rst" = None.
Proof.
  eexists. split; [vm_compute; reflexivity|]. split; [|reflexivity].
  refine (proj2 (proj2 (proj2 (file_types_and_languages_from_structure
    ["home"; "repo"] (Directory [sample_unmapped; sample_readme]) _ eq_refl))
    sample_unmapped _ _ _)).
  - cbn. left.
  - apply (bool_decide_unpack _). vm_compute. exact I.
  - vm_compute. discriminate.
Defined.

Lemma name_in_parts (p : PurePath.t) :
  PurePath.name p ≠ "" → PurePath.name p ∈ p.
Proof.
  unfold PurePath.name. induction p as [|a p IH]; simpl; [done|].
  destruct p as [|b p]; [left|]. intros H. right. by apply IH.
Qed.

Lemma name_of_joined (root_parts p : PurePath.t) :
  p ≠ [] → PurePath.name (root_parts ++ p)%list = PurePath.name p.
Proof.
  unfold PurePath.name. intros Hp.
  destruct (exists_last Hp) as (q & a & ->).
  by rewrite app_assoc, !last_last.
Qed.

(** C9. The component check of the policy reads every component of the
    path, the file's own name included: a file whose name is one of the
    ignored directory names is answered "ignore" whatever directory it is
    in and whatever its size and content; when [is_file()] answers for
    it, as it does for a regular file, the loop body leaves the result as
    it was, and the scan is the scan of the walk without that file. *)
Theorem file_named_like_ignored_dir (repo_path : PurePath.t) (e : Entry) :
  PurePath.name (rel e)
  ∈ [".git"; "__pycache__"; ".pytest_cache"; "node_modules"; ".venv"; "venv"] →
  PurePath.name (parts repo_path e) = PurePath.name (rel e)
  ∧ _should_ignore_file repo_path e = Return true
  ∧ (is_file e ≠ None → ∀ r, visit repo_path r e = Return r)
  ∧ (is_file e ≠ None →
     ∀ before after,
       scan repo_path (Directory (before ++ e :: after)%list)
       = scan repo_path (Directory (before ++ after)%list)).
Proof.
  intros Hname.
  assert (Hne : PurePath.name (rel e) ≠ "").
  { intros Heq. rewrite Heq in Hname. revert Hname.
    apply (bool_decide_unpack _). vm_compute. exact I. }
  assert (Hrel : rel e ≠ []).
  { intros Heq. apply Hne. by rewrite Heq. }
  assert (Hignore : _should_ignore_file repo_path e = Return true).
  { unfold _should_ignore_file.
    destruct (existsb _ (parts repo_path e)) eqn:Hparts; [done|].
    rewrite no_ignored_part_spec in Hparts. exfalso.
    apply (Hparts (PurePath.name (rel e))); [|done].
    unfold parts. apply elem_of_app. right. by apply name_in_parts. }
  assert (Hvisit : is_file e ≠ None → ∀ r, visit repo_path r e = Return r)
    by (intros Hf r; by apply visit_ignored).
  split_and!; [by apply name_of_joined|done|done|].
  intros Hf before after. by apply scan_without_skipped, Hvisit.
Qed.

Lemma file_named_like_ignored_dir_witness :
  scan ["home"; "repo"] (Directory ([sample_small] ++ sample_venv_file :: [sample_readme])%list)
  = scan ["home"; "repo"] (Directory ([sample_small] ++ [sample_readme])%list).
Proof.
  refine (proj2 (proj2 (proj2 (file_named_like_ignored_dir ["home"; "repo"]
    sample_venv_file _))) _ [sample_small] [sample_readme]).
  - apply (bool_decide_unpack _). vm_compute. exact I.
  - discriminate.
Defined.

(** What later files add to the sets and to the project type depends on
    the sets and the project type only. *)
Lemma fold_same_kinds (repo_path : PurePath.t) (es : list Entry) (r r' : State) :
  file_types r = file_types r' → languages r = languages r' →
  project_type r = project_type r' →
  file_types (fold_left (classify repo_path) es r)
  = file_types (fold_left (classify repo_path) es r')
  ∧ languages (fold_left (classify repo_path) es r)
    = languages (fold_left (classify repo_path) es r')
  ∧ project_type (fold_left (classify repo_path) es r)
    = project_type (fold_left (classify repo_path) es r').
Proof.
  revert r r'. induction es as [|e es IH]; intros r r' Hf Hl Hp; [done|].
  simpl. apply IH; rewrite !classify_spec;
    cbn [file_types languages project_type]; by rewrite ?Hf, ?Hl, ?Hp.
Qed.

(** A file without extension leaves the sets and the project type as
    they were, wherever it comes in the walk. *)
Lemma fold_without_extension (repo_path : PurePath.t) (es1 es2 : list Entry)
    (e : Entry) (r : State) :
  extension repo_path e = "" →
  file_types (fold_left (classify repo_path) (es1 ++ e :: es2) r)
  = file_types (fold_left (classify repo_path) (es1 ++ es2) r)
  ∧ languages (fold_left (classify repo_path) (es1 ++ e :: es2) r)
    = languages (fold_left (classify repo_path) (es1 ++ es2) r)
  ∧ project_type (fold_left (classify repo_path) (es1 ++ e :: es2) r)
    = project_type (fold_left (classify repo_path) (es1 ++ es2) r).
Proof.
  intros Hext. rewrite !fold_left_app. simpl.
  apply fold_same_kinds; rewrite classify_spec;
    cbn [file_types languages project_type]; rewrite Hext.
  - by rewrite decide_True.
  - reflexivity.
  - by destruct (bool_decide _).
Qed.

(** C10. A retained file whose extension is empty is in [structure] of
    the scan, at its place in the walk, and in [main_files] or
    [config_files] when its lower-cased name is an entry-point or a
    configuration name; it adds nothing to [file_types] and [languages],
    which are those of the scan of the walk without it, as is the project
    type. The same holds of the loop body at that file, whatever the
    result so far. A name with no dot, or whose only dot comes first, has
    an empty extension: "dockerfile", a configuration name, and
    ".gitignore" are such names. *)
Theorem file_without_extension (repo_path : PurePath.t)
    (before after : list Entry) (e : Entry) (p : Result (list string)) :
  scan repo_path (Directory (before ++ e :: after)%list) = Return p →
  Retained repo_path e →
  PurePath.suffix (parts repo_path e) = "" →
  (shown e ∈ structure p
   ∧ structure p
     = ((shown <$> filter (Retained repo_path) before)
        ++ shown e :: (shown <$> filter (Retained repo_path) after))%list)
  ∧ (PyStr.lower (PurePath.name (parts repo_path e))
     ∈ ["requirements.txt"; "package.json"; "setup.py"; "pyproject.toml";
        "dockerfile"; "docker-compose.yml"; ".env.example"; "config.json"] →
     shown e ∈ config_files p)
  ∧ (PyStr.lower (PurePath.name (parts repo_path e))
     ∈ ["main.py"; "app.py"; "index.py"; "run.py"] →
     shown e ∈ main_files p)
  ∧ (∃ p', scan repo_path (Directory (before ++ after)%list) = Return p'
           ∧ file_types p = file_types p'
           ∧ languages p = languages p'
           ∧ project_type p = project_type p')
  ∧ (∀ r : State, ∃ r' : State,
       visit repo_path r e = Return r'
       ∧ structure r' = (structure r ++ [shown e])%list
       ∧ file_types r' = file_types r
       ∧ languages r' = languages r
       ∧ project_type r' = project_type r
       ∧ main_files r'
         = (main_files r ++
            if bool_decide (PyStr.lower (PurePath.name (parts repo_path e))
                            ∈ ["main.py"; "app.py"; "index.py"; "run.py"])
            then [shown e] else [])%list
       ∧ config_files r'
         = (config_files r ++
            if bool_decide (PyStr.lower (PurePath.name (parts repo_path e))
                            ∈ ["requirements.txt"; "package.json"; "setup.py";
                               "pyproject.toml"; "dockerfile";
                               "docker-compose.yml"; ".env.example";
                               "config.json"])
            then [shown e] else [])%list)
  ∧ (∀ q, PyStr.rfind "." (PurePath.name q) ≤ 0 → PurePath.suffix q = "")
  ∧ PurePath.suffix ["dockerfile"] = ""
  ∧ PurePath.suffix [".gitignore"] = ""
  ∧ "dockerfile" ∈ config_names.
Proof.
  intros Hscan Hr Hsuffix.
  assert (Hext : extension repo_path e = "")
    by (unfold extension; by rewrite Hsuffix).
  pose proof Hscan as (Hex & Hend & Hstops & Hp)%scan_returns_iff.
  cbn [rglob] in Hstops. apply Forall_app in Hstops as [Hb Hea].
  apply Forall_cons in Hea as [_ Ha].
  assert (Hscan' : scan repo_path (Directory (before ++ after)%list)
    = Return (to_list (fold_left (classify repo_path)
                (retained_files repo_path (Directory (before ++ after)%list))
                initial))).
  { apply scan_returns_iff. split_and!; [done|done| |done].
    cbn [rglob]. by apply Forall_app. }
  assert (Hret : retained_files repo_path (Directory (before ++ e :: after)%list)
                 = (filter (Retained repo_path) before
                    ++ e :: filter (Retained repo_path) after)%list).
  { unfold retained_files. cbn [rglob].
    by rewrite filter_app, filter_cons_True. }
  assert (Hret' : retained_files repo_path (Directory (before ++ after)%list)
                  = (filter (Retained repo_path) before
                     ++ filter (Retained repo_path) after)%list).
  { unfold retained_files. cbn [rglob]. by rewrite filter_app. }
  assert (Hin : e ∈ retained_files repo_path (Directory (before ++ e :: after)%list)).
  { rewrite Hret. apply elem_of_app. right. left. }
  assert (Hstructure : structure p
     = ((shown <$> filter (Retained repo_path) before)
        ++ shown e :: (shown <$> filter (Retained repo_path) after))%list).
  { by rewrite (structure_of_scan _ _ _ Hscan), Hret, fmap_app. }
  split_and!.
  - rewrite Hstructure. apply elem_of_app. right. left.
  - done.
  - intros Hname. rewrite (config_files_of_scan _ _ _ Hscan).
    apply list_elem_of_fmap. exists e. split; [done|].
    by apply list_elem_of_filter.
  - intros Hname. rewrite (main_files_of_scan _ _ _ Hscan).
    apply list_elem_of_fmap. exists e. split; [done|].
    by apply list_elem_of_filter.
  - eexists. split; [exact Hscan'|]. rewrite Hp, Hret, Hret'.
    destruct (fold_without_extension repo_path
                (filter (Retained repo_path) before)
                (filter (Retained repo_path) after) e initial Hext)
      as (Hf & Hl & Ht).
    cbn [to_list file_types languages project_type]. by rewrite Hf, Hl, Ht.
  - intros r. exists (classify repo_path r e). split; [by apply visit_retained|].
    rewrite classify_spec. rewrite Hext. simpl.
    split_and!; [done..| |done|done]. by destruct (bool_decide _).
  - intros q Hq. unfold PurePath.suffix.
    destruct (Z.ltb_spec 0 (PyStr.rfind "." (PurePath.name q))); [lia|done].
  - reflexivity.
  - reflexivity.
  - apply (bool_decide_unpack _). vm_compute. exact I.
Qed.

(** Every entry-point name carries the extension .py, so the entry-point
    test of C10 never succeeds on a file without extension. *)
Lemma entry_point_names_have_extension (n : string) :
  n ∈ main_names → PurePath.suffix [n] = ".py".
Proof. intros H. unfold main_names in H. by member_cases H. Qed.

Lemma file_without_extension_witness :
  ∃ p p',
    scan ["home"; "repo"]
      (Directory ([sample_small] ++ sample_dockerfile :: [sample_readme])%list)
    = Return p
    ∧ scan ["home"; "repo"] (Directory ([sample_small] ++ [sample_readme])%list)
      = Return p'
    ∧ structure p = ["src/small.py"; "deploy/Dockerfile"; "README.md"]
    ∧ "deploy/Dockerfile" ∈ config_files p
    ∧ file_types p = file_types p'
    ∧ languages p = languages p'.
Proof.
  eexists.
  destruct (file_without_extension ["home"; "repo"] [sample_small]
              [sample_readme] sample_dockerfile _ eq_refl)
    as ((_ & Hs) & Hc & _ & (p' & Hscan' & Hf & Hl & _) & _).
  - apply (bool_decide_unpack _). vm_compute. exact I.
  - reflexivity.
  - exists p'. split_and!; [reflexivity|exact Hscan'| |apply Hc|exact Hf|exact Hl].
    + refine (eq_trans Hs _). vm_compute. reflexivity.
    + apply (bool_decide_unpack _). vm_compute. exact I.
Defined.

(** * Further properties of the analyzer *)

(** X1. The scan ends with [OSError] exactly when [exists()] raises at
    the root, or the enumeration raises, or the walk yields an entry for
    which [is_file()] raises, or a regular file whose path has no ignored
    component and whose [stat()] raises. *)
Theorem scan_raises_OSError_exactly (repo_path : PurePath.t) (root : RootKind) :
  scan repo_path root = Raise OSError
  ↔ path_exists root = Raise OSError
    ∨ rglob_end root = Raise OSError
    ∨ ∃ e, e ∈ rglob root
           ∧ (is_file e = None
              ∨ (is_file e = Some true
                 ∧ (∀ part, part ∈ parts repo_path e →
                      part ∉ [".git"; "__pycache__"; ".pytest_cache";
                              "node_modules"; ".venv"; "venv"])
                 ∧ st_size e = None)).
Proof.
  rewrite scan_raises_OSError_iff, Exists_exists. unfold Stops, StatFails.
  split.
  - intros [H|(e & He & H)]; [by right; left|]. right; right. by exists e.
  - intros [H|[H|(e & He & H)]]; [left; by destruct root|by left|].
    right. by exists e.
Qed.

(** X2. Every entry of [main_files] and of [config_files] is an entry of
    [structure], in the same relative order. *)
Theorem main_and_config_files_within_structure (repo_path : PurePath.t)
    (root : RootKind) (p : Result (list string)) :
  scan repo_path root = Return p →
  main_files p `sublist_of` structure p
  ∧ config_files p `sublist_of` structure p.
Proof.
  intros Hscan.
  rewrite (main_files_of_scan _ _ _ Hscan), (config_files_of_scan _ _ _ Hscan),
    (structure_of_scan _ _ _ Hscan).
  split; apply fmap_sublist, sublist_filter.
Qed.

Lemma main_and_config_files_within_structure_witness :
  ∃ p, scan ["home"; "repo"]
         (Directory [sample_dockerfile; sample_small; sample_entry_point])
       = Return p
       ∧ main_files p `sublist_of` structure p.
Proof.
  eexists. split; [vm_compute; reflexivity|].
  exact (proj1 (main_and_config_files_within_structure ["home"; "repo"]
    (Directory [sample_dockerfile; sample_small; sample_entry_point]) _ eq_refl)).
Defined.

Lemma language_of_Some (ext lang : string) :
  language_of ext = Some lang → (ext, lang) ∈ language_table.
Proof.
  unfold language_of.
  destruct (List.find _ language_table) as [[k v]|] eqn:E; [|done].
  apply find_some in E as [Hin Heq]. apply String.eqb_eq in Heq.
  simpl in *. subst k. intros [= <-]. by apply list_elem_of_In.
Qed.

(** In the extension table, Python and JavaScript are the languages of
    the primary extensions and of no other. *)
Lemma language_of_primary (ext lang : string) :
  lang = "Python" ∨ lang = "JavaScript" →
  language_of ext = Some lang ↔ primary_language ext = Some lang.
Proof.
  intros Hlang. split.
  - intros H. pose proof (language_of_Some _ _ H) as Hin.
    unfold language_table in Hin.
    repeat (apply elem_of_cons in Hin as [[= -> ->]|Hin]);
      try reflexivity; try (destruct Hlang; discriminate).
    by apply elem_of_nil in Hin.
  - unfold primary_language. by case_bool_decide.
Qed.

(** X3. The project type is "unknown", "Python" or "JavaScript"; it is
    "unknown" exactly when [languages] holds neither Python nor
    JavaScript, and otherwise it is one of the languages reported. *)
Theorem project_type_among_languages (repo_path : PurePath.t)
    (root : RootKind) (p : Result (list string)) :
  scan repo_path root = Return p →
  (project_type p = "unknown" ∨ project_type p = "Python"
   ∨ project_type p = "JavaScript")
  ∧ (project_type p = "unknown"
     ↔ ("Python" ∉ languages p) ∧ ("JavaScript" ∉ languages p))
  ∧ (project_type p ≠ "unknown" → project_type p ∈ languages p).
Proof.
  intros Hscan. rewrite (project_type_of_scan _ _ _ Hscan).
  assert (Hfirst : ∀ lang,
    first_primary_language repo_path (retained_files repo_path root) = Some lang →
    (lang = "Python" ∨ lang = "JavaScript") ∧ lang ∈ languages p).
  { intros lang H. unfold first_primary_language in H.
    apply head_Some_elem_of, list_elem_of_omap in H as (e & He & Hp).
    pose proof (primary_language_concrete _ _ Hp) as Hl. split; [done|].
    apply (languages_of_scan _ _ _ _ Hscan). exists e. split; [done|].
    by apply language_of_primary. }
  assert (Hnone :
    first_primary_language repo_path (retained_files repo_path root) = None →
    ∀ lang, lang = "Python" ∨ lang = "JavaScript" → lang ∉ languages p).
  { intros H lang Hl (e & He & Hlang)%(languages_of_scan _ _ _ _ Hscan).
    apply language_of_primary in Hlang; [|done].
    unfold first_primary_language in H. apply head_None in H.
    assert (lang ∈ omap (λ e, primary_language (extension repo_path e))
                       (retained_files repo_path root)) as Hin.
    { apply list_elem_of_omap. by exists e. }
    rewrite H in Hin. by apply elem_of_nil in Hin. }
  destruct (first_primary_language repo_path (retained_files repo_path root))
    as [lang|] eqn:E; simpl.
  - destruct (Hfirst lang eq_refl) as [Hl Hin]. split_and!.
    + destruct Hl as [-> | ->]; auto.
    + split.
      * intros ->. destruct Hl; done.
      * intros [H1 H2]. destruct Hl as [-> | ->]; done.
    + done.
  - split_and!; [by left| |done].
    split; [|done]. intros _. split; apply Hnone; auto.
Qed.

Lemma project_type_among_languages_witness :
  ∃ p, scan ["home"; "repo"] (Directory [sample_readme; sample_script]) = Return p
       ∧ project_type p ∈ languages p.
Proof.
  eexists. split; [vm_compute; reflexivity|].
  refine (proj2 (proj2 (project_type_among_languages ["home"; "repo"]
    (Directory [sample_readme; sample_script]) _ eq_refl)) _).
  vm_compute. discriminate.
Defined.

Lemma lstrip_fixed (c : ascii) (t : string) :
  PyStr.is_space c = false → PyStr.lstrip (String c t) = String c t.
Proof. intros Hc. simpl. by rewrite Hc. Qed.

Lemma rstrip_fixed (c : ascii) (t : string) :
  PyStr.is_space c = false →
  PyStr.rstrip (t +:+ String c "") = t +:+ String c "".
Proof.
  intros Hc. induction t as [|a t IH].
  - rewrite PyStrFacts.app_empty_l. simpl. by rewrite Hc.
  - rewrite PyStrFacts.app_cons. simpl. rewrite IH.
    destruct (t +:+ String c "") eqn:E; [|done].
    by apply PyStrFacts.app_eq_empty in E as [_ ?].
Qed.

(** Trimming a trimmed string changes nothing. *)
Lemma strip_idempotent (s : string) : PyStr.strip (PyStr.strip s) = PyStr.strip s.
Proof.
  destruct (PyStrFacts.strip_spec s) as (_ & _ & _ & _ & _ & [H|[Hhead Hlast]]).
  - by rewrite H.
  - destruct Hhead as (c & t & Ht & Hc), Hlast as (u & d & Hu & Hd).
    unfold PyStr.strip at 1. rewrite Ht, (lstrip_fixed _ _ Hc), <- Ht, Hu.
    by apply rstrip_fixed.
Qed.

Lemma occurs_app (c : ascii) (s t : string) :
  occurs c (s +:+ t) ↔ occurs c s ∨ occurs c t.
Proof.
  induction s as [|a s IH].
  - rewrite PyStrFacts.app_empty_l. simpl. tauto.
  - rewrite PyStrFacts.app_cons. simpl. rewrite IH. tauto.
Qed.

Lemma occurs_strip (c : ascii) (s : string) :
  occurs c (PyStr.strip s) → occurs c s.
Proof.
  destruct (PyStrFacts.strip_spec s) as (l & r & Hs & _).
  intros H. rewrite Hs, !occurs_app. tauto.
Qed.

(** X4. Every reported dependency is a trimmed line of the text of a
    retained requirements.txt that is listed in [config_files]: it is not
    empty, does not start with '#', holds '==', has no white space at
    either end and no line break. *)
Theorem dependencies_well_formed (repo_path : PurePath.t) (root : RootKind)
    (p : Result (list string)) (d : string) :
  scan repo_path root = Return p →
  d ∈ dependencies p →
  d ≠ "" ∧ ¬ StartsWith "#" d ∧ Substring "==" d
  ∧ PyStr.strip d = d ∧ ¬ occurs "010" d
  ∧ ∃ e text line,
      e ∈ rglob root ∧ Retained repo_path e
      ∧ PyStr.lower (PurePath.name (parts repo_path e)) = "requirements.txt"
      ∧ shown e ∈ config_files p
      ∧ read_text e = Some text
      ∧ line ∈ PyStr.split "010" text ∧ d = PyStr.strip line.
Proof.
  intros Hscan Hd. rewrite (dependencies_of_scan _ _ _ Hscan) in Hd.
  apply list_elem_of_bind in Hd as (e & Hd & He).
  unfold declared_dependencies in Hd.
  destruct (decide (filename repo_path e = "requirements.txt")) as [Hname|];
    [|by apply elem_of_nil in Hd].
  destruct (read_text e) as [text|] eqn:Htext; [|by apply elem_of_nil in Hd].
  apply list_elem_of_filter in Hd as [(Hne & Hhash & Heq) Hd].
  apply list_elem_of_fmap in Hd as (line & -> & Hline).
  split_and!; [done|done|done|apply strip_idempotent| |].
  - intros Hnl%occurs_strip.
    pose proof (PyStrFacts.split_no_sep "010" text) as Hall.
    rewrite Forall_forall in Hall. by apply (Hall line).
  - pose proof He as [Hr Hin]%elem_of_retained_files.
    exists e, text, line. split_and!; try done.
    rewrite (config_files_of_scan _ _ _ Hscan). apply list_elem_of_fmap.
    exists e. split; [done|]. apply list_elem_of_filter. split; [|done].
    rewrite Hname. unfold config_names. left.
Qed.

Lemma dependencies_well_formed_witness :
  ∃ p, scan ["home"; "repo"] (Directory [sample_small; sample_requirements])
       = Return p
       ∧ PyStr.strip "flask==2.3.0" = "flask==2.3.0".
Proof.
  eexists. split; [vm_compute; reflexivity|].
  refine (proj1 (proj2 (proj2 (proj2 (dependencies_well_formed ["home"; "repo"]
    (Directory [sample_small; sample_requirements]) _ "flask==2.3.0"
    eq_refl _))))).
  vm_compute. right. left.
Defined.

(** X5. The binary check reads the first 1024 bytes and nothing more: two
    files with the same path and size whose contents agree on the first
    1024 bytes get the same answer from the ignore policy. *)
Theorem ignore_decision_reads_first_1024_bytes (repo_path : PurePath.t)
    (e1 e2 : Entry) :
  rel e1 = rel e2 →
  st_size e1 = st_size e2 →
  take 1024 <$> content e1 = take 1024 <$> content e2 →
  _should_ignore_file repo_path e1 = _should_ignore_file repo_path e2.
Proof.
  intros Hrel Hsize Hhead. unfold _should_ignore_file, parts, stat_size.
  rewrite Hrel, Hsize.
  destruct (existsb _ _); [done|]. destruct (st_size e2); [|done]. simpl.
  destruct (_ <? _); [done|].
  destruct (content e1), (content e2); simplify_eq/=; [|done].
  by rewrite Hhead.
Qed.

Lemma ignore_decision_reads_first_1024_bytes_witness :
  _should_ignore_file ["home"; "repo"] sample_late_null = Return false.
Proof.
  refine (eq_trans (ignore_decision_reads_first_1024_bytes ["home"; "repo"]
    sample_late_null sample_clean _ _ _) _).
  - reflexivity.
  - reflexivity.
  - vm_compute. reflexivity.
  - vm_compute. reflexivity.
Defined.

Lemma for_each_all_skipped {A S : Type} (body : S → A → outcome S)
    (l : list A) (s : S) :
  (∀ s' x, x ∈ l → body s' x = Return s') → for_each body l s = Return s.
Proof.
  induction l as [|x l IH]; intros H; [done|]. simpl.
  rewrite H by left. simpl. apply IH. intros s' y Hy. apply H. by right.
Qed.

(** X6. The component check also reads the components of the root path:
    when one of them is an ignored directory name, every file is answered
    "ignore" before its size or content is looked at, so a scan that
    returns returns the empty result; and it returns exactly when
    [exists()] answers that the root is there, the enumeration reaches
    its end and [is_file()] answers for every entry. *)
Theorem scan_under_ignored_root (repo_path : PurePath.t) (root : RootKind)
    (part : string) :
  part ∈ repo_path →
  part ∈ [".git"; "__pycache__"; ".pytest_cache"; "node_modules"; ".venv"; "venv"] →
  (∀ e, _should_ignore_file repo_path e = Return true)
  ∧ (∀ p, scan repo_path root = Return p →
          p = mkResult [] [] [] [] [] [] "unknown")
  ∧ (scan repo_path root = Return (mkResult [] [] [] [] [] [] "unknown")
     ↔ path_exists root = Return true
       ∧ rglob_end root = Return ()
       ∧ ∀ e, e ∈ rglob root → is_file e ≠ None).
Proof.
  intros Hpart Hbad.
  assert (Hroot : ¬ RootClear repo_path) by (intros H; by apply (H part)).
  assert (Hignore : ∀ e, _should_ignore_file repo_path e = Return true)
    by (intros e; by apply should_ignore_under_ignored_root).
  assert (Hnone : retained_files repo_path root = []).
  { apply elem_of_nil_inv. intros e [[_ Hr] _]%elem_of_retained_files.
    by rewrite Hignore in Hr. }
  assert (Hstops : ∀ e, Stops repo_path e ↔ is_file e = None).
  { intros e. unfold Stops, StatFails. split; [|by left].
    intros [?|(_ & Hclear & _)]; [done|].
    by apply parts_clear in Hclear as [? _]. }
  split_and!; [done| |].
  - intros p (_ & _ & _ & ->)%scan_returns_iff. by rewrite Hnone.
  - rewrite scan_returns_iff, Hnone, Forall_forall. split.
    + intros (Hex & Hend & Hall & _). split_and!; [done..|].
      intros e He Hf. by apply (Hall e He), Hstops.
    + intros (Hex & Hend & Hall). split_and!; [done..| |done].
      intros e He Hs%Hstops. by apply (Hall e He).
Qed.

Lemma scan_under_ignored_root_witness :
  scan ["home"; "venv"; "repo"] (Directory [sample_small; sample_vanished])
  = Return (mkResult [] [] [] [] [] [] "unknown").
Proof.
  apply (scan_under_ignored_root ["home"; "venv"; "repo"] _ "venv").
  - right. left.
  - apply (bool_decide_unpack _). vm_compute. exact I.
  - split_and!; [reflexivity..|].
    intros e He. cbn [rglob] in He. by member_cases He.
Defined.

Lemma first_primary_language_app (repo_path : PurePath.t) (l1 l2 : list Entry) :
  first_primary_language repo_path (l1 ++ l2)%list
  = match first_primary_language repo_path l1 with
    | Some lang => Some lang
    | None => first_primary_language repo_path l2
    end.
Proof.
  unfold first_primary_language. induction l1 as [|e l1 IH]; [done|].
  simpl. by destruct (primary_language (extension repo_path e)).
Qed.

Lemma retained_files_app (repo_path : PurePath.t) (w1 w2 : list Entry) :
  retained_files repo_path (Directory (w1 ++ w2)%list)
  = (retained_files repo_path (Directory w1)
     ++ retained_files repo_path (Directory w2))%list.
Proof. unfold retained_files. cbn [rglob]. apply filter_app. Qed.

(** X7. The scan of a walk that is one walk followed by another is the
    two scans put together: the lists are concatenated, the sets united,
    and the project type is that of the first part unless that is
    "unknown". *)
Theorem scan_of_concatenated_walks (repo_path : PurePath.t)
    (w1 w2 : list Entry) (p : Result (list string)) :
  scan repo_path (Directory (w1 ++ w2)%list) = Return p →
  ∃ p1 p2,
    scan repo_path (Directory w1) = Return p1
    ∧ scan repo_path (Directory w2) = Return p2
    ∧ structure p = (structure p1 ++ structure p2)%list
    ∧ main_files p = (main_files p1 ++ main_files p2)%list
    ∧ config_files p = (config_files p1 ++ config_files p2)%list
    ∧ dependencies p = (dependencies p1 ++ dependencies p2)%list
    ∧ (∀ x, x ∈ file_types p ↔ x ∈ file_types p1 ∨ x ∈ file_types p2)
    ∧ (∀ x, x ∈ languages p ↔ x ∈ languages p1 ∨ x ∈ languages p2)
    ∧ project_type p
      = if decide (project_type p1 = "unknown") then project_type p2
        else project_type p1.
Proof.
  intros Hscan.
  pose proof Hscan as (_ & _ & Hstat & _)%scan_returns_iff.
  cbn [rglob] in Hstat. apply Forall_app in Hstat as [Hstat1 Hstat2].
  assert (Hscan1 : scan repo_path (Directory w1)
    = Return (to_list (fold_left (classify repo_path)
                (retained_files repo_path (Directory w1)) initial)))
    by by apply scan_returns_iff.
  assert (Hscan2 : scan repo_path (Directory w2)
    = Return (to_list (fold_left (classify repo_path)
                (retained_files repo_path (Directory w2)) initial)))
    by by apply scan_returns_iff.
  eexists _, _. split; [exact Hscan1|]. split; [exact Hscan2|]. split_and!.
  - rewrite (structure_of_scan _ _ _ Hscan), (structure_of_scan _ _ _ Hscan1),
      (structure_of_scan _ _ _ Hscan2), retained_files_app. apply fmap_app.
  - rewrite (main_files_of_scan _ _ _ Hscan), (main_files_of_scan _ _ _ Hscan1),
      (main_files_of_scan _ _ _ Hscan2), retained_files_app, filter_app.
    apply fmap_app.
  - rewrite (config_files_of_scan _ _ _ Hscan), (config_files_of_scan _ _ _ Hscan1),
      (config_files_of_scan _ _ _ Hscan2), retained_files_app, filter_app.
    apply fmap_app.
  - rewrite (dependencies_of_scan _ _ _ Hscan), (dependencies_of_scan _ _ _ Hscan1),
      (dependencies_of_scan _ _ _ Hscan2), retained_files_app.
    apply bind_app.
  - intros x. rewrite (file_types_of_scan _ _ _ _ Hscan),
      (file_types_of_scan _ _ _ _ Hscan1), (file_types_of_scan _ _ _ _ Hscan2),
      retained_files_app.
    setoid_rewrite elem_of_app. split.
    + intros (Hx & e & [He|He] & Hext); [left|right]; eauto.
    + intros [(Hx & e & He & Hext)|(Hx & e & He & Hext)]; eauto.
  - intros x. rewrite (languages_of_scan _ _ _ _ Hscan),
      (languages_of_scan _ _ _ _ Hscan1), (languages_of_scan _ _ _ _ Hscan2),
      retained_files_app.
    setoid_rewrite elem_of_app. split.
    + intros (e & [He|He] & Hlang); [left|right]; eauto.
    + intros [(e & He & Hlang)|(e & He & Hlang)]; eauto.
  - rewrite (project_type_of_scan _ _ _ Hscan), (project_type_of_scan _ _ _ Hscan1),
      (project_type_of_scan _ _ _ Hscan2), retained_files_app,
      first_primary_language_app.
    destruct (first_primary_language repo_path
                (retained_files repo_path (Directory w1))) as [lang|] eqn:E.
    + rewrite decide_False; [done|]. simpl.
      unfold first_primary_language in E.
      apply head_Some_elem_of, list_elem_of_omap in E as (e & _ & Hp).
      apply primary_language_concrete in Hp as [-> | ->]; done.
    + by rewrite decide_True.
Qed.

Lemma scan_of_concatenated_walks_witness :
  ∃ p p1 p2,
    scan ["home"; "repo"] (Directory ([sample_readme] ++ [sample_small])%list)
    = Return p
    ∧ scan ["home"; "repo"] (Directory [sample_readme]) = Return p1
    ∧ scan ["home"; "repo"] (Directory [sample_small]) = Return p2
    ∧ structure p = (structure p1 ++ structure p2)%list.
Proof.
  eexists.
  destruct (scan_of_concatenated_walks ["home"; "repo"]
              [sample_readme] [sample_small] _ eq_refl)
    as (p1 & p2 & H1 & H2 & Hs & _).
  exists p1, p2. split_and!; [reflexivity|exact H1|exact H2|exact Hs].
Defined.

(** X15. The code sorts nothing: the result follows the order in which
    the walk yields the files. When two walks yield the same entries in
    different orders and the scan of one returns, so does the scan of the
    other; the two results have the same [file_types] and [languages] as
    sets and the same [structure], [main_files], [config_files] and
    [dependencies] up to order, each [structure] in the order of its own
    walk. *)
Theorem scan_of_permuted_walk (repo_path : PurePath.t) (w1 w2 : list Entry)
    (p1 : Result (list string)) :
  w1 ≡ₚ w2 →
  scan repo_path (Directory w1) = Return p1 →
  structure p1 = shown <$> filter (Retained repo_path) w1
  ∧ ∃ p2, scan repo_path (Directory w2) = Return p2
      ∧ structure p2 = shown <$> filter (Retained repo_path) w2
      ∧ (∀ x, x ∈ file_types p1 ↔ x ∈ file_types p2)
      ∧ (∀ x, x ∈ languages p1 ↔ x ∈ languages p2)
      ∧ structure p1 ≡ₚ structure p2
      ∧ main_files p1 ≡ₚ main_files p2
      ∧ config_files p1 ≡ₚ config_files p2
      ∧ dependencies p1 ≡ₚ dependencies p2.
Proof.
  intros Hperm Hscan1.
  pose proof Hscan1 as (_ & _ & Hstat & _)%scan_returns_iff.
  assert (Hscan2 : scan repo_path (Directory w2)
    = Return (to_list (fold_left (classify repo_path)
                (retained_files repo_path (Directory w2)) initial))).
  { apply scan_returns_iff. split_and!; [done|done| |done].
    cbn [rglob] in *. by rewrite <- Hperm. }
  assert (Hret : retained_files repo_path (Directory w1)
                 ≡ₚ retained_files repo_path (Directory w2)).
  { unfold retained_files. cbn [rglob]. by rewrite Hperm. }
  split; [by rewrite (structure_of_scan _ _ _ Hscan1)|].
  eexists. split; [exact Hscan2|]. split_and!.
  - by rewrite (structure_of_scan _ _ _ Hscan2).
  - intros x. rewrite (file_types_of_scan _ _ _ _ Hscan1),
      (file_types_of_scan _ _ _ _ Hscan2).
    by setoid_rewrite Hret.
  - intros x. rewrite (languages_of_scan _ _ _ _ Hscan1),
      (languages_of_scan _ _ _ _ Hscan2).
    by setoid_rewrite Hret.
  - rewrite (structure_of_scan _ _ _ Hscan1), (structure_of_scan _ _ _ Hscan2).
    by rewrite Hret.
  - rewrite (main_files_of_scan _ _ _ Hscan1), (main_files_of_scan _ _ _ Hscan2).
    by rewrite Hret.
  - rewrite (config_files_of_scan _ _ _ Hscan1), (config_files_of_scan _ _ _ Hscan2).
    by rewrite Hret.
  - rewrite (dependencies_of_scan _ _ _ Hscan1), (dependencies_of_scan _ _ _ Hscan2).
    by rewrite Hret.
Qed.

Lemma scan_of_permuted_walk_witness :
  ∃ p1 p2,
    scan ["home"; "repo"] (Directory [sample_script; sample_small]) = Return p1
    ∧ scan ["home"; "repo"] (Directory [sample_small; sample_script]) = Return p2
    ∧ structure p1 ≡ₚ structure p2
    ∧ structure p1 = ["web/App.TSX"; "src/small.py"]
    ∧ structure p2 = ["src/small.py"; "web/App.TSX"].
Proof.
  eexists.
  destruct (scan_of_permuted_walk ["home"; "repo"]
              [sample_script; sample_small] [sample_small; sample_script] _
              (perm_swap _ _ _) eq_refl)
    as (Hs1 & p2 & H2 & Hs2 & _ & _ & Hs & _).
  exists p2. split_and!; [reflexivity|exact H2|exact Hs| |].
  - refine (eq_trans Hs1 _). vm_compute. reflexivity.
  - refine (eq_trans Hs2 _). vm_compute. reflexivity.
Defined.

(** * The generator *)

Section GeneratorFacts.

Import DocumentationGenerator.

Ltac run_method :=
  cbv [step_outcome _call_llm mbind method_bind mret method_ret get_self raise
       chat_completion count_call message_content write_text with_calls
       fst snd];
  cbn [writable api requests send log_write].

Lemma generate_readme_step (a : Result (list string)) (g : Generator.t) (w : World) :
  generate_readme a (g, w)
  = step_outcome
      (mkRequest (Generator.model g) (_get_readme_system_prompt g)
         (_prepare_readme_context g a))
      (Generator.repo_path g ++ ["README.md"])%list g w.
Proof.
  unfold generate_readme. run_method.
  destruct (Generator.max_llm_calls g <=? Generator.llm_calls_made g) eqn:E;
    run_method; [done|].
  rewrite E. run_method.
  destruct (api w (length (requests w))); run_method; [done|done|].
  by destruct (writable w _).
Qed.

Lemma _generate_architecture_doc_step (a : Result (list string))
    (docs : PurePath.t) (g : Generator.t) (w : World) :
  _generate_architecture_doc a docs (g, w)
  = step_outcome
      (mkRequest (Generator.model g) _get_architecture_system_prompt
         (_prepare_architecture_context g a))
      (docs ++ ["architecture.md"])%list g w.
Proof.
  unfold _generate_architecture_doc. run_method.
  destruct (Generator.max_llm_calls g <=? Generator.llm_calls_made g) eqn:E;
    run_method; [done|].
  rewrite E. run_method.
  destruct (api w (length (requests w))); run_method; [done|done|].
  by destruct (writable w _).
Qed.

Lemma _generate_api_doc_step (a : Result (list string))
    (docs : PurePath.t) (g : Generator.t) (w : World) :
  _generate_api_doc a docs (g, w)
  = step_outcome
      (mkRequest (Generator.model g) _get_api_system_prompt
         (_prepare_api_context g a))
      (docs ++ ["api.md"])%list g w.
Proof.
  unfold _generate_api_doc. run_method.
  destruct (Generator.max_llm_calls g <=? Generator.llm_calls_made g) eqn:E;
    run_method; [done|].
  rewrite E. run_method.
  destruct (api w (length (requests w))); run_method; [done|done|].
  by destruct (writable w _).
Qed.

Lemma _generate_setup_doc_step (a : Result (list string))
    (docs : PurePath.t) (g : Generator.t) (w : World) :
  _generate_setup_doc a docs (g, w)
  = step_outcome
      (mkRequest (Generator.model g) _get_setup_system_prompt
         (_prepare_setup_context g a))
      (docs ++ ["setup.md"])%list g w.
Proof.
  unfold _generate_setup_doc. run_method.
  destruct (Generator.max_llm_calls g <=? Generator.llm_calls_made g) eqn:E;
    run_method; [done|].
  rewrite E. run_method.
  destruct (api w (length (requests w))); run_method; [done|done|].
  by destruct (writable w _).
Qed.

Lemma _generate_usage_doc_step (a : Result (list string))
    (docs : PurePath.t) (g : Generator.t) (w : World) :
  _generate_usage_doc a docs (g, w)
  = step_outcome
      (mkRequest (Generator.model g) _get_usage_system_prompt
         (_prepare_usage_context g a))
      (docs ++ ["usage.md"])%list g w.
Proof.
  unfold _generate_usage_doc. run_method.
  destruct (Generator.max_llm_calls g <=? Generator.llm_calls_made g) eqn:E;
    run_method; [done|].
  rewrite E. run_method.
  destruct (api w (length (requests w))); run_method; [done|done|].
  by destruct (writable w _).
Qed.

Lemma same_outside_refl (w : World) : same_outside w w.
Proof. by repeat split. Qed.

Lemma with_calls_same (g : Generator.t) : g = with_calls g (Generator.llm_calls_made g).
Proof. by destruct g. Qed.

Ltac effects_trivia :=
  first [ done | lia | apply same_outside_refl | apply with_calls_same
        | by repeat constructor | tauto ].

Lemma Effects_nothing (n : nat) (targets : list PurePath.t)
    (s : Generator.t * World) :
  Effects n targets s (s, Normal ()).
Proof.
  destruct s as [g w]. exists [], [], [].
  rewrite !app_nil_r. unfold refused. simpl.
  split_and!; effects_trivia.
Qed.

Lemma step_outcome_Effects (q : Request) (path : PurePath.t)
    (g : Generator.t) (w : World) :
  Effects 1 [path] (g, w) (step_outcome q path g w).
Proof.
  unfold step_outcome.
  destruct (Z.leb_spec (Generator.max_llm_calls g) (Generator.llm_calls_made g))
    as [Hspent|Hleft]; [apply Effects_nothing|].
  destruct (api w _) as [| |text].
  - exists [q], [], []. rewrite !app_nil_r. unfold refused. simpl.
    split_and!; effects_trivia.
  - exists [q], [], []. rewrite !app_nil_r. unfold refused. simpl.
    split_and!; effects_trivia.
  - destruct (writable w path).
    + exists [q], [], [(path, text)]. rewrite !app_nil_r. unfold refused. simpl.
      split_and!; effects_trivia.
    + exists [q], [], []. rewrite !app_nil_r. unfold refused. simpl.
      split_and!; effects_trivia.
Qed.

Lemma Effects_weaken (n n' : nat) (t t' : list PurePath.t)
    (s : Generator.t * World) (out : (Generator.t * World) * ended unit) :
  (n ≤ n')%nat → t ⊆ t' → Effects n t s out → Effects n' t' s out.
Proof.
  destruct s as [g w], out as [[g' w'] r]. intros Hn Ht.
  intros (sent & dirs & files & ? & ? & ? & ? & ? & ? & ? & ? & ? & ? & Hf & ?).
  exists sent, dirs, files. split_and!; try done; [lia|].
  eapply Forall_impl; [exact Hf|]. intros f Hin. by apply Ht.
Qed.

(** One method after another that ended normally: the effects add up. *)
Lemma Effects_trans (n1 n2 : nat) (t1 t2 : list PurePath.t)
    (s s1 : Generator.t * World) (out : (Generator.t * World) * ended unit) :
  Effects n1 t1 s (s1, Normal ()) →
  Effects n2 t2 s1 out →
  Effects (n1 + n2) (t1 ++ t2) s out.
Proof.
  intros H1 H2. destruct out as [[g2 w2] r], s as [g w], s1 as [g1 w1].
  destruct H1 as (sent1 & dirs1 & files1 & Hr1 & Hd1 & Hw1 & Ho1 & Hg1 & Hn1
                  & Hc1 & Hm1 & Hb1 & Hl1 & Hf1 & _).
  destruct H2 as (sent2 & dirs2 & files2 & Hr2 & Hd2 & Hw2 & Ho2 & Hg2 & Hn2
                  & Hc2 & Hm2 & Hb2 & Hl2 & Hf2 & Hend).
  assert (Hmax : Generator.max_llm_calls g1 = Generator.max_llm_calls g)
    by (by rewrite Hg1).
  unfold refused in Hc1, Hb1. simpl in Hc1, Hb1.
  exists (sent1 ++ sent2)%list, (dirs1 ++ dirs2)%list, (files1 ++ files2)%list.
  split_and!.
  - by rewrite Hr2, Hr1, app_assoc.
  - by rewrite Hd2, Hd1, app_assoc.
  - by rewrite Hw2, Hw1, app_assoc.
  - destruct Ho1 as (?&?&?&?&?&?), Ho2 as (?&?&?&?&?&?).
    repeat split; congruence.
  - rewrite Hg2, Hg1. by destruct g.
  - rewrite length_app. lia.
  - rewrite length_app. lia.
  - lia.
  - intros Hsent. rewrite <- Hmax.
    destruct sent2 as [|q2 sent2]; [|by apply Hb2].
    simpl in Hc2. rewrite app_nil_r in Hsent. specialize (Hb1 Hsent).
    destruct r as [|[]]; simpl in *; lia.
  - rewrite !length_app. lia.
  - apply Forall_app. split.
    + eapply Forall_impl; [exact Hf1|]. intros f Hin. apply elem_of_app. by left.
    + eapply Forall_impl; [exact Hf2|]. intros f Hin. apply elem_of_app. by right.
  - done.
Qed.

(** Two methods in sequence: the effects add up. *)
Lemma Effects_bind (n1 n2 : nat) (t1 t2 : list PurePath.t)
    (m : method state unit) (k : unit → method state unit)
    (s : Generator.t * World) :
  Effects n1 t1 s (m s) →
  (∀ s1, Effects n2 t2 s1 (k () s1)) →
  Effects (n1 + n2) (t1 ++ t2) s ((m ≫= k) s).
Proof.
  intros H1 H2. unfold mbind, method_bind.
  destruct (m s) as [s1 [[]|e]].
  - eapply Effects_trans; [exact H1|apply H2].
  - eapply Effects_weaken; [| |exact H1]; [lia|].
    intros x Hx. apply elem_of_app. by left.
Qed.

(** What the effects say about requests and files. *)
Lemma Effects_summary (n : nat) (targets : list PurePath.t)
    (g g' : Generator.t) (w w' : World) (r : ended unit) :
  Effects n targets (g, w) ((g', w'), r) →
  ∃ sent files,
    requests w' = (requests w ++ sent)%list
    ∧ written w' = (written w ++ files)%list
    ∧ (length sent ≤ n)%nat
    ∧ Z.of_nat (length sent) ≤ remaining g
    ∧ (length files ≤ length sent)%nat
    ∧ Forall (λ f, f.1 ∈ targets) files
    ∧ Generator.repo_path g' = Generator.repo_path g.
Proof.
  intros (sent & dirs & files & Hr & _ & Hw & _ & Hg & Hn & Hc & Hm & Hb & Hl
          & Hf & Hend).
  exists sent, files. split_and!; try done.
  - unfold remaining. destruct sent as [|q sent]; [simpl; lia|].
    assert (q :: sent ≠ []) as Hne by done. specialize (Hb Hne).
    assert (0 ≤ refused r) by (destruct r as [|[]]; simpl; lia). lia.
  - by rewrite Hg.
Qed.

Lemma mkdir_Effects (p : PurePath.t) (s : Generator.t * World) :
  Effects 0 [] s (mkdir p s).
Proof.
  destruct s as [g w]. unfold mkdir. destruct (writable w p).
  - exists [], [p], []. rewrite !app_nil_r. unfold refused. simpl.
    split_and!; effects_trivia.
  - exists [], [], []. rewrite !app_nil_r. unfold refused. simpl.
    split_and!; effects_trivia.
Qed.

Lemma generate_documentation_files_unfold (a : Result (list string))
    (g : Generator.t) (w : World) :
  generate_documentation_files a (g, w)
  = if Generator.max_llm_calls g <=? Generator.llm_calls_made g
    then ((g, w), Normal ())
    else
      let docs := (Generator.repo_path g ++ ["docs"])%list in
      (_ ← mkdir docs;
       _ ← _generate_architecture_doc a docs;
       _ ← _generate_api_doc a docs;
       _ ← _generate_setup_doc a docs;
       _generate_usage_doc a docs) (g, w).
Proof.
  unfold generate_documentation_files.
  unfold mbind at 1, method_bind at 1, get_self. cbn [fst].
  by destruct (_ <=? _).
Qed.

Lemma generate_readme_Effects (a : Result (list string)) (s : Generator.t * World) :
  Effects 1 [(Generator.repo_path s.1 ++ ["README.md"])%list] s (generate_readme a s).
Proof. destruct s as [g w]. rewrite generate_readme_step. apply step_outcome_Effects. Qed.

Lemma generate_documentation_files_Effects (a : Result (list string))
    (s : Generator.t * World) :
  Effects 4 (docs_targets (Generator.repo_path s.1)) s
    (generate_documentation_files a s).
Proof.
  destruct s as [g w]. rewrite generate_documentation_files_unfold.
  cbn [fst].
  destruct (_ <=? _); [apply Effects_nothing|].
  set (docs := (Generator.repo_path g ++ ["docs"])%list).
  apply (Effects_bind 0 4 [] _ (mkdir docs)); [apply mkdir_Effects|]. intros s1.
  assert (Hstep : ∀ (step : method state unit) path,
    (∀ g1 w1, ∃ q, step (g1, w1) = step_outcome q path g1 w1) →
    ∀ s1, Effects 1 [path] s1 (step s1)).
  { intros step path Hs [g1 w1]. destruct (Hs g1 w1) as [q ->].
    apply step_outcome_Effects. }
  unfold docs_targets. subst docs.
  replace (Generator.repo_path g ++ ["docs"; "architecture.md"])%list
    with ((Generator.repo_path g ++ ["docs"]) ++ ["architecture.md"])%list
    by by rewrite <- app_assoc.
  replace (Generator.repo_path g ++ ["docs"; "api.md"])%list
    with ((Generator.repo_path g ++ ["docs"]) ++ ["api.md"])%list
    by by rewrite <- app_assoc.
  replace (Generator.repo_path g ++ ["docs"; "setup.md"])%list
    with ((Generator.repo_path g ++ ["docs"]) ++ ["setup.md"])%list
    by by rewrite <- app_assoc.
  replace (Generator.repo_path g ++ ["docs"; "usage.md"])%list
    with ((Generator.repo_path g ++ ["docs"]) ++ ["usage.md"])%list
    by by rewrite <- app_assoc.
  set (docs := (Generator.repo_path g ++ ["docs"])%list).
  apply (Effects_bind 1 3 [_] [_; _; _] (_generate_architecture_doc a docs)).
  { apply Hstep. intros. eexists. apply _generate_architecture_doc_step. }
  intros s2.
  apply (Effects_bind 1 2 [_] [_; _] (_generate_api_doc a docs)).
  { apply Hstep. intros. eexists. apply _generate_api_doc_step. }
  intros s3.
  apply (Effects_bind 1 1 [_] [_] (_generate_setup_doc a docs)).
  { apply Hstep. intros. eexists. apply _generate_setup_doc_step. }
  intros s4. apply Hstep. intros. eexists. apply _generate_usage_doc_step.
Qed.

End GeneratorFacts.

Section GeneratorTheorems.

Import DocumentationGenerator.

Lemma Effects_KeepsBudget (n : nat) (targets : list PurePath.t)
    (s : Generator.t * World) (out : (Generator.t * World) * ended unit) :
  Effects n targets s out → KeepsBudget n s out.
Proof.
  destruct s as [g w], out as [[g' w'] r].
  intros (sent & dirs & files & Hr & _ & _ & _ & Hg & Hn & Hc & Hm & Hb & _ & _ & Hend).
  exists sent. unfold remaining.
  assert (Hmax : Generator.max_llm_calls g' = Generator.max_llm_calls g)
    by (by rewrite Hg).
  assert (Hrefused : 0 ≤ refused r ≤ 1) by (destruct r as [|[]]; simpl; lia).
  split_and!; [done|done| |lia| |done|].
  - destruct sent as [|q sent]; [simpl; lia|].
    assert (q :: sent ≠ []) as Hne by done. specialize (Hb Hne). lia.
  - destruct sent as [|q sent]; [simpl in Hc; lia|].
    assert (q :: sent ≠ []) as Hne by done. specialize (Hb Hne). lia.
  - destruct Hend as [->|[->|[->| ->]]]; done.
Qed.

(** X8. [generate_readme] sends at most one request and
    [generate_documentation_files] at most four, neither more than the
    budget still allows; the counter grows by the requests the API
    answered (a refused request is sent but not counted) and never
    passes the budget; and the budget error of [_call_llm] never comes
    out of these methods, which check the budget before every call. *)
Theorem generator_keeps_budget (a : Result (list string))
    (g : Generator.t) (w : World) :
  KeepsBudget 1 (g, w) (generate_readme a (g, w))
  ∧ KeepsBudget 4 (g, w) (generate_documentation_files a (g, w)).
Proof.
  split.
  - eapply Effects_KeepsBudget, generate_readme_Effects.
  - eapply Effects_KeepsBudget, generate_documentation_files_Effects.
Qed.

Lemma with_calls_with_calls (g : Generator.t) (m n : Z) :
  with_calls (with_calls g m) n = with_calls g n.
Proof. reflexivity. Qed.

Lemma step_outcome_with_calls (q : Request) (path : PurePath.t)
    (g : Generator.t) (n : Z) (w : World) :
  ∃ n' w', (step_outcome q path (with_calls g n) w).1 = (with_calls g n', w').
Proof.
  unfold step_outcome. destruct (_ <=? _); [by eauto|].
  destruct (api w _); [by eauto..|]. destruct (writable w _); by eauto.
Qed.

(** A step of the source followed by the rest is the plan with that step
    first. *)
Lemma bind_step_run_plan (g : Generator.t) (q : Request) (path : PurePath.t)
    (rest : list (Request * PurePath.t))
    (m : method state unit) (k : unit → method state unit) :
  (∀ n w, m (with_calls g n, w) = step_outcome q path (with_calls g n) w) →
  (∀ n w, k () (with_calls g n, w) = run_plan rest (with_calls g n, w)) →
  ∀ n w, (m ≫= k) (with_calls g n, w)
         = run_plan ((q, path) :: rest) (with_calls g n, w).
Proof.
  intros Hm Hk n w. unfold mbind, method_bind. rewrite Hm.
  cbn [run_plan fst snd].
  destruct (step_outcome_with_calls q path g n w) as (n' & w' & Hs).
  destruct (step_outcome q path (with_calls g n) w) as [s [[]|e]]; [|done].
  simpl in Hs. subst s. apply Hk.
Qed.

Lemma doc_steps_run_plan (a : Result (list string)) (g : Generator.t)
    (n : Z) (w : World) :
  let docs := (Generator.repo_path g ++ ["docs"])%list in
  (_ ← _generate_architecture_doc a docs;
   _ ← _generate_api_doc a docs;
   _ ← _generate_setup_doc a docs;
   _generate_usage_doc a docs) (with_calls g n, w)
  = run_plan (doc_plan a g) (with_calls g n, w).
Proof.
  intros docs. unfold doc_plan. fold docs. revert n w.
  apply bind_step_run_plan.
  { intros. rewrite _generate_architecture_doc_step. reflexivity. }
  intros n w. revert n w. apply bind_step_run_plan.
  { intros. rewrite _generate_api_doc_step. reflexivity. }
  intros n w. revert n w. apply bind_step_run_plan.
  { intros. rewrite _generate_setup_doc_step. reflexivity. }
  intros n w. rewrite _generate_usage_doc_step. cbn [run_plan fst snd].
  change (Generator.model (with_calls g n)) with (Generator.model g).
  change (_prepare_usage_context (with_calls g n) a)
    with (_prepare_usage_context g a).
  by destruct (step_outcome _ _ (with_calls g n) w) as [s [[]|e]].
Qed.

(** A plan whose requests are all answered and whose files can all be
    written goes as far as the budget allows. *)
Lemma run_plan_success (plan : list (Request * PurePath.t)) (g : Generator.t)
    (w : World) (c : nat → string) :
  (∀ i, (i < length plan)%nat →
        api w (length (requests w) + i)%nat = Content (c i)) →
  (∀ step, step ∈ plan → writable w step.2 = true) →
  let k := Nat.min (length plan) (Z.to_nat (remaining g)) in
  ∃ w',
    run_plan plan (g, w)
    = ((with_calls g (Generator.llm_calls_made g + Z.of_nat k), w'), Normal ())
    ∧ requests w' = (requests w ++ take k plan.*1)%list
    ∧ written w' = (written w ++ take k (plan_files plan c))%list
    ∧ made_dirs w' = made_dirs w
    ∧ same_outside w w'.
Proof.
  revert g w c. induction plan as [|[q path] plan IH]; intros g w c Hapi Hwr k.
  - exists w. subst k. simpl. rewrite Z.add_0_r, !app_nil_r.
    split_and!; first [done | by destruct g | apply same_outside_refl].
  - cbn [run_plan fst snd]. unfold step_outcome.
    destruct (Z.leb_spec (Generator.max_llm_calls g) (Generator.llm_calls_made g))
      as [Hspent|Hleft].
    + assert (Hk : k = O) by (subst k; unfold remaining; lia).
      destruct (IH g w c) as (w' & Hrun & Hr & Hw & Hd & Ho).
      { intros i Hi. apply Hapi. simpl. lia. }
      { intros step Hstep. apply Hwr. by right. }
      assert (Nat.min (length plan) (Z.to_nat (remaining g)) = O) as Hk'
        by (unfold remaining; lia).
      rewrite Hk' in Hrun, Hr, Hw. exists w'. rewrite Hk. simpl in *.
      by split_and!.
    + rewrite <- (Nat.add_0_r (length (requests w))), (Hapi O) by (simpl; lia).
      assert (writable w path = true) as Hw0 by (apply (Hwr (q, path)); left).
      rewrite Hw0.
      set (g1 := with_calls g (Generator.llm_calls_made g + 1)).
      set (w1 := log_write path (c O) (send q w)).
      destruct (IH g1 w1 (λ i, c (S i))) as (w' & Hrun & Hr & Hw & Hd & Ho).
      { intros i Hi. subst w1. cbn [api requests log_write send].
        rewrite length_app. simpl.
        rewrite <- (Hapi (S i)) by (simpl; lia). f_equal. lia. }
      { intros step Hstep. subst w1. cbn [writable log_write send].
        apply Hwr. by right. }
      assert (Hk : k = S (Nat.min (length plan) (Z.to_nat (remaining g1)))).
      { subst k g1. unfold remaining, with_calls.
        cbn [length Generator.max_llm_calls Generator.llm_calls_made]. lia. }
      exists w'. rewrite Hk, Hrun. subst g1 w1.
      cbn [requests written made_dirs log_write send] in *.
      split_and!.
      * f_equal. f_equal. unfold with_calls. simpl. f_equal. lia.
      * rewrite Hr, <- app_assoc. done.
      * rewrite Hw, <- app_assoc. done.
      * done.
      * destruct Ho as (?&?&?&?&?&?). by repeat split.
Qed.

(** X9. When the API answers the next four requests and the docs
    directory and its files can be written, [generate_documentation_files]
    makes as many of its four requests as the budget allows, in the order
    architecture, api, setup, usage, writes each answer to its file under
    docs and counts it; with the budget spent it does nothing, and does
    not create the directory. *)
Theorem generate_documentation_files_writes (a : Result (list string))
    (g : Generator.t) (w : World) (c : nat → string) :
  let docs := (Generator.repo_path g ++ ["docs"])%list in
  let k := Nat.min 4 (Z.to_nat (remaining g)) in
  (∀ i, (i < 4)%nat → api w (length (requests w) + i)%nat = Content (c i)) →
  writable w docs = true →
  (∀ name, name ∈ ["architecture.md"; "api.md"; "setup.md"; "usage.md"] →
           writable w (docs ++ [name])%list = true) →
  ∃ w',
    generate_documentation_files a (g, w)
    = ((with_calls g (Generator.llm_calls_made g + Z.of_nat k), w'), Normal ())
    ∧ requests w' = (requests w ++ take k (doc_plan a g).*1)%list
    ∧ written w'
      = (written w ++
         take k [((docs ++ ["architecture.md"])%list, c 0%nat);
                 ((docs ++ ["api.md"])%list, c 1%nat);
                 ((docs ++ ["setup.md"])%list, c 2%nat);
                 ((docs ++ ["usage.md"])%list, c 3%nat)])%list
    ∧ made_dirs w' = (made_dirs w ++ if decide (k = O) then [] else [docs])%list
    ∧ same_outside w w'.
Proof.
  intros docs k Hapi Hdocs Hfiles.
  rewrite generate_documentation_files_unfold.
  destruct (Z.leb_spec (Generator.max_llm_calls g) (Generator.llm_calls_made g))
    as [Hspent|Hleft].
  - assert (Hk : k = O) by (subst k; unfold remaining; lia).
    exists w. rewrite Hk. simpl. rewrite Z.add_0_r, !app_nil_r.
    split_and!; first [done | by destruct g | apply same_outside_refl].
  - cbv zeta. fold docs. unfold mbind at 1, method_bind at 1.
    unfold mkdir at 1. rewrite Hdocs.
    pose proof (doc_steps_run_plan a g (Generator.llm_calls_made g)
                  (log_mkdir docs w)) as Hplan.
    rewrite <- (with_calls_same g) in Hplan. cbv zeta in Hplan.
    fold docs in Hplan. rewrite Hplan. clear Hplan.
    destruct (run_plan_success (doc_plan a g) g (log_mkdir docs w) c)
      as (w' & Hrun & Hr & Hw & Hd & Ho).
    { intros i Hi. apply Hapi. exact Hi. }
    { intros step Hstep. cbn [writable log_mkdir].
      unfold doc_plan in Hstep. fold docs in Hstep.
      repeat (apply elem_of_cons in Hstep as [->|Hstep]);
        [apply Hfiles; set_solver..|by apply elem_of_nil in Hstep]. }
    exists w'. change (length (doc_plan a g)) with 4%nat in *. fold k in Hrun, Hr, Hw.
    split_and!; [done|done|done| |done].
    rewrite Hd. cbn [made_dirs log_mkdir]. rewrite decide_False; [done|].
    subst k. unfold remaining. lia.
Qed.
End GeneratorTheorems.

(** * The bot *)

Section BotTheorems.

(** X10. [DocumentationBot(...)] is built exactly when [exists()] answers
    that the root path is there, the detail level is one of low, medium,
    high (as written, in lower case) and the budget is positive. When
    [exists()] itself raises, the constructor ends with that error; every
    other failure is a [ValueError], the first failing check in that
    order deciding which. The bot starts without a generator. *)
Theorem bot_init_validation (repo_path : PurePath.t) (detail_level : string)
    (max_llm_calls : Z) (w : World) :
  (DocumentationBot.__init__ repo_path detail_level max_llm_calls w
   = Normal (Bot.mk repo_path detail_level max_llm_calls None)
   ↔ path_exists (repository w) = Return true
     ∧ detail_level ∈ ["low"; "medium"; "high"]
     ∧ 0 < max_llm_calls)
  ∧ (∀ b, DocumentationBot.__init__ repo_path detail_level max_llm_calls w
          = Normal b →
          b = Bot.mk repo_path detail_level max_llm_calls None)
  ∧ (∀ e, DocumentationBot.__init__ repo_path detail_level max_llm_calls w
          = Raised e →
          e = match path_exists (repository w) with
              | Raise _ => PyOSError
              | Return found =>
                  PyValueError
                    (if negb found then PathMissing
                     else if decide (detail_level ∈ ["low"; "medium"; "high"])
                          then BadMaxCalls else BadDetailLevel)
              end).
Proof.
  assert (Hthere : ∀ root, path_exists root = Return true →
    new_analyzer root = Return ()).
  { intros root H. unfold new_analyzer, __init__. by rewrite H. }
  unfold DocumentationBot.__init__.
  destruct (path_exists (repository w)) as [[]|x] eqn:Hexists; simpl.
  - rewrite (Hthere _ Hexists). case_bool_decide as Hd; simpl.
    + destruct (Z.leb_spec max_llm_calls 0).
      * split_and!; [|done|].
        -- split; [done|]. intros (_ & _ & ?). lia.
        -- intros e [= <-]. by rewrite decide_True.
      * split_and!; [|by intros b [= <-]|done]. by split.
    + split_and!; [|done|].
      * split; [done|]. by intros (_ & ? & _).
      * intros e [= <-]. by rewrite decide_False.
  - split_and!; [|done|by intros e [= <-]]. split; [done|by intros [? _]].
  - split_and!; [|done|].
    + split; [done|by intros [? _]].
    + intros e [= <-]. destruct (repository w); by simplify_eq/=.
Qed.

Ltac bot_step :=
  cbn -[analyze DocumentationGenerator.__init__
        DocumentationGenerator.generate_readme
        DocumentationGenerator.generate_documentation_files].

(** What [generate_documentation] does on a bot that has no generator
    yet, spelled out by cases. *)
Lemma generate_documentation_unfold (p : PurePath.t) (d : string) (m : Z)
    (w : World) :
  DocumentationBot.generate_documentation (Bot.mk p d m None, w)
  = match analyze p (repository w) with
    | Raise e => ((Bot.mk p d m None, w), Raised (error_of_exn e))
    | Return a =>
        match present w (p ++ ["README.md"])%list with
        | None => ((Bot.mk p d m None, w), Raised PyOSError)
        | Some found =>
            match DocumentationGenerator.__init__ p d m w with
            | Raised e => ((Bot.mk p d m None, w), Raised e)
            | Normal g0 =>
                if found
                then
                  let '((g2, w2), r) :=
                    DocumentationGenerator.generate_documentation_files a (g0, w) in
                  ((Bot.mk p d m (Some g2), w2), r)
                else
                  match DocumentationGenerator.generate_readme a (g0, w) with
                  | ((g1, w1), Normal _) =>
                      let '((g2, w2), r) :=
                        DocumentationGenerator.generate_documentation_files a (g1, w1) in
                      ((Bot.mk p d m (Some g2), w2), r)
                  | ((g1, w1), Raised e) => ((Bot.mk p d m (Some g1), w1), Raised e)
                  end
            end
        end
    end.
Proof.
  unfold DocumentationBot.generate_documentation, mbind, method_bind,
    DocumentationBot.analyzer_analyze, DocumentationBot.readme_exists,
    DocumentationBot._get_generator, DocumentationBot.call, mret, method_ret.
  bot_step.
  destruct (analyze p (repository w)) as [a|e]; bot_step; [|done].
  destruct (present w (p ++ ["README.md"])%list) as [[]|]; bot_step; [| |done].
  - destruct (DocumentationGenerator.__init__ p d m w) as [g0|e]; bot_step;
      [|done].
    by destruct (DocumentationGenerator.generate_documentation_files a (g0, w))
      as [[g2 w2] r].
  - destruct (DocumentationGenerator.__init__ p d m w) as [g0|e]; bot_step;
      [|done].
    destruct (DocumentationGenerator.generate_readme a (g0, w))
      as [[g1 w1] [[]|e]]; bot_step; [|done].
    by destruct (DocumentationGenerator.generate_documentation_files a (g1, w1))
      as [[g2 w2] r].
Qed.

(** X11. Without the openai package, or without a non-empty
    OPENAI_API_KEY, [generate_documentation] on a fresh bot always
    raises, also when README.md exists: the error of the analysis if
    that fails, else the error of [exists()] if the check for README.md
    raises, else [ImportError], else the [ValueError] for the key.
    Nothing is sent or written and the bot is as before. *)
Theorem generate_documentation_without_generator (p : PurePath.t) (d : string)
    (m : Z) (w : World) :
  openai_installed w = false
  ∨ environ w !! "OPENAI_API_KEY" = None
  ∨ environ w !! "OPENAI_API_KEY" = Some "" →
  DocumentationBot.generate_documentation (Bot.mk p d m None, w)
  = ((Bot.mk p d m None, w),
     Raised match analyze p (repository w) with
            | Raise e => error_of_exn e
            | Return _ =>
                match present w (p ++ ["README.md"])%list with
                | None => PyOSError
                | Some _ =>
                    if openai_installed w then PyValueError ApiKeyMissing
                    else PyImportError
                end
            end).
Proof.
  intros H. rewrite generate_documentation_unfold.
  destruct (analyze p (repository w)) as [a|e]; [|done].
  destruct (present w (p ++ ["README.md"])%list) as [found|]; [|done].
  unfold DocumentationGenerator.__init__.
  destruct (openai_installed w); simpl; [|done].
  destruct H as [H|[H|H]]; [done|by rewrite H..].
Qed.

(** X12. One run of [generate_documentation] on a fresh bot sends at most
    five requests and at most the budget, writes at most one file per
    request and only README.md and the four files under docs; when
    README.md exists it is not written and at most four requests are
    sent; and when the analysis fails nothing is sent or written. *)
Theorem generate_documentation_effects (p : PurePath.t) (d : string) (m : Z)
    (w : World) :
  match DocumentationBot.generate_documentation (Bot.mk p d m None, w) with
  | ((bot', w'), r) =>
      ∃ sent files,
        requests w' = (requests w ++ sent)%list
        ∧ written w' = (written w ++ files)%list
        ∧ (length sent ≤ 5)%nat
        ∧ Z.of_nat (length sent) ≤ Z.max 0 m
        ∧ (length files ≤ length sent)%nat
        ∧ Forall (λ f, f.1 ∈ (p ++ ["README.md"])%list :: docs_targets p) files
        ∧ (present w (p ++ ["README.md"])%list = Some true →
           (length sent ≤ 4)%nat ∧ Forall (λ f, f.1 ∈ docs_targets p) files)
        ∧ (∀ e, analyze p (repository w) = Raise e →
                sent = [] ∧ files = [] ∧ r = Raised (error_of_exn e))
  end.
Proof.
  rewrite generate_documentation_unfold.
  assert (Hnothing : ∀ bot r,
    (∀ e, analyze p (repository w) = Raise e → r = Raised (error_of_exn e)) →
    match ((bot, w), r) : (Bot.t * World) * ended unit with
    | ((bot', w'), r) =>
      ∃ sent files,
        requests w' = (requests w ++ sent)%list
        ∧ written w' = (written w ++ files)%list
        ∧ (length sent ≤ 5)%nat
        ∧ Z.of_nat (length sent) ≤ Z.max 0 m
        ∧ (length files ≤ length sent)%nat
        ∧ Forall (λ f, f.1 ∈ (p ++ ["README.md"])%list :: docs_targets p) files
        ∧ (present w (p ++ ["README.md"])%list = Some true →
           (length sent ≤ 4)%nat ∧ Forall (λ f, f.1 ∈ docs_targets p) files)
        ∧ (∀ e, analyze p (repository w) = Raise e →
                sent = [] ∧ files = [] ∧ r = Raised (error_of_exn e))
    end).
  { intros bot r Hr. exists [], []. rewrite !app_nil_r. simpl.
    split_and!; try done; try lia.
    - intros _. split; [lia|constructor].
    - intros e He. auto. }
  destruct (analyze p (repository w)) as [a|e] eqn:Ha.
  2:{ apply (Hnothing (Bot.mk p d m None)). by intros e' [= <-]. }
  destruct (present w (p ++ ["README.md"])%list) as [found|] eqn:Hpresent.
  2:{ by apply (Hnothing (Bot.mk p d m None)). }
  destruct (DocumentationGenerator.__init__ p d m w) as [g0|e] eqn:Hg0.
  2:{ by apply (Hnothing (Bot.mk p d m None)). }
  assert (Hrem : remaining g0 = Z.max 0 m ∧ Generator.repo_path g0 = p).
  { unfold DocumentationGenerator.__init__ in Hg0.
    destruct (negb _); [done|]. destruct (environ w !! _) as [[|??]|]; [done| |done].
    injection Hg0 as <-. unfold remaining. simpl. split; [f_equal; lia|done]. }
  destruct Hrem as [Hrem Hpath].
  pose proof (generate_readme_Effects a (g0, w)) as Hreadme.
  cbn [fst] in Hreadme. rewrite Hpath in Hreadme.
  destruct found.
  - pose proof (generate_documentation_files_Effects a (g0, w)) as Hdocs.
    cbn [fst] in Hdocs. rewrite Hpath in Hdocs.
    destruct (DocumentationGenerator.generate_documentation_files a (g0, w))
      as [[g2 w2] r].
    apply Effects_summary in Hdocs
      as (sent & files & Hr & Hw & Hn & Hb & Hl & Hf & _).
    exists sent, files. rewrite Hrem in Hb.
    split_and!; [done|done|lia|lia|done| |by split|done].
    eapply Forall_impl; [exact Hf|]. intros f Hin. by right.
  - destruct (DocumentationGenerator.generate_readme a (g0, w))
      as [[g1 w1] [[]|e]].
    + pose proof (generate_documentation_files_Effects a (g1, w1)) as Hdocs.
      cbn [fst] in Hdocs.
      assert (Generator.repo_path g1 = p) as Hp1.
      { apply Effects_summary in Hreadme as (?&?&?&?&?&?&?&?&Hp). by rewrite Hp. }
      rewrite Hp1 in Hdocs.
      destruct (DocumentationGenerator.generate_documentation_files a (g1, w1))
        as [[g2 w2] r].
      pose proof (Effects_trans _ _ _ _ _ _ _ Hreadme Hdocs) as Hboth.
      apply Effects_summary in Hboth
        as (sent & files & Hr & Hw & Hn & Hb & Hl & Hf & _).
      exists sent, files. rewrite Hrem in Hb. simpl in Hn.
      split_and!; [done|done|lia|lia|done|done|done|done].
    + apply Effects_summary in Hreadme
        as (sent & files & Hr & Hw & Hn & Hb & Hl & Hf & _).
      exists sent, files. rewrite Hrem in Hb.
      split_and!; [done|done|lia|lia|done| |done|done].
      eapply Forall_impl; [exact Hf|]. intros f Hin.
      apply list_elem_of_singleton in Hin. rewrite Hin. left.
Qed.


(** The generator a bot works with: the one it holds, or a new one. *)
Lemma generate_documentation_unfold_any (bot : Bot.t) (w : World) :
  DocumentationBot.generate_documentation (bot, w)
  = match analyze (Bot.repo_path bot) (repository w) with
    | Raise e => ((bot, w), Raised (error_of_exn e))
    | Return a =>
        match present w (Bot.repo_path bot ++ ["README.md"])%list with
        | None => ((bot, w), Raised PyOSError)
        | Some found =>
            match obtain_generator bot w with
            | Raised e => ((bot, w), Raised e)
            | Normal g0 =>
                if found
                then
                  let '((g2, w2), r) :=
                    DocumentationGenerator.generate_documentation_files a (g0, w) in
                  ((holding bot g2, w2), r)
                else
                  match DocumentationGenerator.generate_readme a (g0, w) with
                  | ((g1, w1), Normal _) =>
                      let '((g2, w2), r) :=
                        DocumentationGenerator.generate_documentation_files a (g1, w1) in
                      ((holding bot g2, w2), r)
                  | ((g1, w1), Raised e) => ((holding bot g1, w1), Raised e)
                  end
            end
        end
    end.
Proof.
  unfold DocumentationBot.generate_documentation, mbind, method_bind,
    DocumentationBot.analyzer_analyze, DocumentationBot.readme_exists,
    DocumentationBot._get_generator, DocumentationBot.call, mret, method_ret,
    obtain_generator, holding.
  bot_step.
  destruct (analyze (Bot.repo_path bot) (repository w)) as [a|e]; bot_step;
    [|done].
  destruct (present w (Bot.repo_path bot ++ ["README.md"])%list) as [[]|];
    bot_step; [| |done].
  - destruct (Bot.generator bot) as [g|]; bot_step.
    + by destruct (DocumentationGenerator.generate_documentation_files a (g, w))
        as [[g2 w2] r].
    + destruct (DocumentationGenerator.__init__ _ _ _ w) as [g0|e]; bot_step;
        [|done].
      by destruct (DocumentationGenerator.generate_documentation_files a (g0, w))
        as [[g2 w2] r].
  - destruct (Bot.generator bot) as [g|]; bot_step.
    + destruct (DocumentationGenerator.generate_readme a (g, w))
        as [[g1 w1] [[]|e]]; bot_step; [|done].
      by destruct (DocumentationGenerator.generate_documentation_files a (g1, w1))
        as [[g2 w2] r].
    + destruct (DocumentationGenerator.__init__ _ _ _ w) as [g0|e]; bot_step;
        [|done].
      destruct (DocumentationGenerator.generate_readme a (g0, w))
        as [[g1 w1] [[]|e]]; bot_step; [|done].
      by destruct (DocumentationGenerator.generate_documentation_files a (g1, w1))
        as [[g2 w2] r].
Qed.

Lemma Effects_within_budget (n : nat) (targets : list PurePath.t)
    (g g' : Generator.t) (w w' : World) (r : ended unit) :
  Effects n targets (g, w) ((g', w'), r) →
  Generator.llm_calls_made g ≤ Generator.max_llm_calls g →
  Generator.llm_calls_made g' ≤ Generator.max_llm_calls g'.
Proof.
  intros (sent & dirs & files & _ & _ & _ & _ & Hg & _ & Hc & Hm & Hb & _) Hle.
  assert (Hmax : Generator.max_llm_calls g' = Generator.max_llm_calls g)
    by (by rewrite Hg).
  assert (0 ≤ refused r) by (destruct r as [|[]]; simpl; lia).
  rewrite Hmax. destruct sent as [|q sent]; [simpl in Hc; lia|].
  assert (q :: sent ≠ []) as Hne by done. specialize (Hb Hne). lia.
Qed.

(** X13. The counter of the generator a bot holds never passes the
    budget: a bot whose budget is not negative and whose generator, if it
    has one, is within its budget is left so by every run of
    [generate_documentation], however the run ends. The generator is
    kept from one run to the next, so the budget covers all runs. *)
Theorem generate_documentation_keeps_within_budget (bot : Bot.t) (w : World) :
  WithinBudget bot →
  WithinBudget (DocumentationBot.generate_documentation (bot, w)).1.1.
Proof.
  intros Hok. rewrite generate_documentation_unfold_any.
  destruct (analyze (Bot.repo_path bot) (repository w)) as [a|e]; [|done].
  destruct (present w _) as [found|]; [|done].
  destruct (obtain_generator bot w) as [g0|e] eqn:Hg0; [|done].
  assert (H0 : Generator.llm_calls_made g0 ≤ Generator.max_llm_calls g0).
  { unfold obtain_generator in Hg0. unfold WithinBudget in Hok.
    destruct (Bot.generator bot) as [g|]; [by injection Hg0 as <-|].
    unfold DocumentationGenerator.__init__ in Hg0.
    destruct (negb _); [done|].
    destruct (environ w !! _) as [[|??]|]; [done| |done].
    injection Hg0 as <-. simpl. lia. }
  pose proof (generate_readme_Effects a (g0, w)) as Hreadme.
  pose proof (generate_documentation_files_Effects a (g0, w)) as Hdocs.
  destruct found.
  - destruct (DocumentationGenerator.generate_documentation_files a (g0, w))
      as [[g2 w2] r].
    simpl. eapply Effects_within_budget; [exact Hdocs|done].
  - destruct (DocumentationGenerator.generate_readme a (g0, w))
      as [[g1 w1] [[]|e]].
    + pose proof (Effects_within_budget _ _ _ _ _ _ _ Hreadme H0) as H1.
      pose proof (generate_documentation_files_Effects a (g1, w1)) as Hdocs1.
      destruct (DocumentationGenerator.generate_documentation_files a (g1, w1))
        as [[g2 w2] r].
      simpl. eapply Effects_within_budget; [exact Hdocs1|done].
    + simpl. eapply Effects_within_budget; [exact Hreadme|done].
Qed.

End BotTheorems.

(** * setup.py and the analyzer *)

Lemma rstrip_blank (r : string) : blank r → PyStr.rstrip r = "".
Proof.
  induction r as [|a r IH]; [done|]. intros [Ha Hr]. simpl.
  by rewrite (IH Hr), Ha.
Qed.

Lemma rstrip_app_blank (s r : string) :
  blank r → PyStr.rstrip (s +:+ r) = PyStr.rstrip s.
Proof.
  intros Hr. induction s as [|a s IH].
  - rewrite PyStrFacts.app_empty_l. by apply rstrip_blank.
  - rewrite PyStrFacts.app_cons. simpl. by rewrite IH.
Qed.

Lemma lstrip_app_blank (s r : string) :
  blank r →
  PyStr.lstrip (s +:+ r) = PyStr.lstrip s +:+ r
  ∨ (PyStr.lstrip (s +:+ r) = "" ∧ PyStr.lstrip s = "").
Proof.
  intros Hr. induction s as [|a s IH].
  - rewrite !PyStrFacts.app_empty_l. right. split; [|done].
    clear -Hr. induction r as [|b r IH]; [done|]. destruct Hr as [Hb Hr].
    simpl. rewrite Hb. by apply IH.
  - rewrite PyStrFacts.app_cons. simpl. destruct (PyStr.is_space a); [done|].
    left. by rewrite PyStrFacts.app_cons.
Qed.

Lemma prefix_empty (s : string) : String.prefix "" s = true.
Proof. by destruct s. Qed.

(** A line break at the end makes no difference to [strip]. *)
Lemma strip_line_break (s : string) : PyStr.strip (s +:+ nl) = PyStr.strip s.
Proof.
  assert (Hnl : blank nl) by (by split).
  unfold PyStr.strip.
  destruct (lstrip_app_blank s nl Hnl) as [->|[-> ->]]; [|done].
  by apply rstrip_app_blank.
Qed.

Lemma startswith_hash_line_break (s : string) :
  PyStr.startswith (s +:+ nl) "#" = PyStr.startswith s "#".
Proof.
  destruct s as [|a s]; [done|]. rewrite PyStrFacts.app_cons.
  unfold PyStr.startswith. cbn [String.prefix]. by rewrite !prefix_empty.
Qed.

Lemma startswith_hash_strip (s : string) :
  PyStr.startswith s "#" = true → PyStr.startswith (PyStr.strip s) "#" = true.
Proof.
  intros [t ->]%PyStrFacts.startswith_spec.
  change ("#" +:+ t) with (String "#" t). unfold PyStr.strip.
  rewrite lstrip_fixed by done.
  destruct (PyStrFacts.rstrip_head "#" t eq_refl) as [u ->].
  apply PyStrFacts.startswith_spec. by exists u.
Qed.

Lemma read_requirements_pieces (pieces : list string) :
  PyStr.strip <$>
    List.filter
      (λ line, negb (String.eqb (PyStr.strip line) "")
               && negb (PyStr.startswith line "#"))
      (with_breaks pieces)
  = PyStr.strip <$> List.filter kept_by_setup pieces.
Proof.
  induction pieces as [|piece rest IH]; [done|].
  destruct rest as [|next rest].
  - simpl. destruct (String.eqb_spec piece "") as [->|Hne]; [done|].
    unfold kept_by_setup. simpl. by destruct (_ && _).
  - change (with_breaks (piece :: next :: rest))
      with ((piece +:+ nl) :: with_breaks (next :: rest)).
    cbn [List.filter]. unfold kept_by_setup at 1.
    rewrite strip_line_break, startswith_hash_line_break.
    destruct (_ && _); [|exact IH].
    rewrite !fmap_cons, strip_line_break. by f_equal.
Qed.

Lemma kept_by_setup_spec (piece : string) :
  kept_by_setup piece = true ↔ SetupLine piece.
Proof.
  unfold kept_by_setup, SetupLine, StartsWith.
  rewrite andb_true_iff, !negb_true_iff, String.eqb_neq.
  by rewrite <- not_true_iff_false, PyStrFacts.startswith_spec.
Qed.

Lemma filter_kept_by_setup (pieces : list string) :
  List.filter kept_by_setup pieces = filter SetupLine pieces.
Proof.
  induction pieces as [|piece rest IH]; [done|].
  cbn [List.filter]. rewrite filter_cons, IH.
  destruct (kept_by_setup piece) eqn:E.
  - rewrite decide_True; [done|]. by apply kept_by_setup_spec.
  - rewrite decide_False; [done|]. rewrite <- kept_by_setup_spec. congruence.
Qed.

(** X14. setup.py reads from the text of a requirements file the lines
    of which something is left after trimming and which, before
    trimming, do not start with '#', each trimmed, whether or not it
    holds '=='. Every dependency the analyzer extracts from that text is
    among them, in the same order, and every requirement setup.py returns
    is trimmed and not empty. *)
Theorem dependencies_within_setup_requirements (text : string) :
  ∃ reqs,
    read_requirements (Some text) = Normal reqs
    ∧ reqs = PyStr.strip <$> filter SetupLine (PyStr.split "010" text)
    ∧ dependency_lines text `sublist_of` reqs
    ∧ Forall (λ r, r ≠ "" ∧ PyStr.strip r = r) reqs.
Proof.
  eexists. split; [reflexivity|]. unfold iter_lines, dependency_lines.
  rewrite read_requirements_pieces, filter_kept_by_setup.
  split; [reflexivity|].
  generalize (PyStr.split "010" text). intros pieces. split.
  - induction pieces as [|piece rest IH]; [done|].
    rewrite fmap_cons, !filter_cons.
    destruct (decide (DependencyLine (PyStr.strip piece))) as [Hdep|Hdep].
    + rewrite decide_True.
      { rewrite fmap_cons. by apply sublist_skip. }
      destruct Hdep as (Hne & Hhash & _). split; [done|].
      intros Hs. apply Hhash.
      by apply PyStrFacts.startswith_spec, startswith_hash_strip,
        PyStrFacts.startswith_spec.
    + destruct (decide (SetupLine piece)); [|done].
      rewrite fmap_cons. by apply sublist_cons.
  - apply Forall_forall. intros r (piece & -> & Hin)%list_elem_of_fmap.
    apply list_elem_of_filter in Hin as [[Hne _] _].
    split; [done|apply strip_idempotent].
Qed.

(** A line that the two readers treat differently: setup.py looks for
    '#' before it trims, the analyzer after. *)
Lemma indented_comment_is_kept_by_setup_only :
  read_requirements (Some "  #a==1") = Normal ["#a==1"]
  ∧ dependency_lines "  #a==1" = [].
Proof. split; vm_compute; reflexivity. Qed.

(** * Witnesses on the sample worlds *)

Lemma generate_documentation_files_writes_witness :
  ∃ w',
    DocumentationGenerator.generate_documentation_files sample_analysis
      (sample_generator, sample_world)
    = ((with_calls sample_generator 2, w'), Normal ())
    ∧ written w'
      = [(["home"; "repo"; "docs"; "architecture.md"], "text");
         (["home"; "repo"; "docs"; "api.md"], "text")].
Proof.
  destruct (generate_documentation_files_writes sample_analysis
              sample_generator sample_world (λ _, "text"))
    as (w' & Hrun & _ & Hw & _).
  - intros i _. reflexivity.
  - reflexivity.
  - intros name _. reflexivity.
  - exists w'. split; [exact Hrun|exact Hw].
Defined.

Lemma generate_documentation_without_generator_witness :
  DocumentationBot.generate_documentation (sample_bot, sample_world_no_key)
  = ((sample_bot, sample_world_no_key), Raised (PyValueError ApiKeyMissing)).
Proof.
  refine (eq_trans (generate_documentation_without_generator
                      ["home"; "repo"] "medium" 2 sample_world_no_key _) _).
  - right. left. reflexivity.
  - vm_compute. reflexivity.
Defined.

Lemma generate_documentation_keeps_within_budget_witness :
  WithinBudget
    (DocumentationBot.generate_documentation (sample_bot, sample_world)).1.1.
Proof.
  apply (generate_documentation_keeps_within_budget sample_bot sample_world).
  unfold WithinBudget, sample_bot. simpl. lia.
Defined.
